(** * SignSpeak: the sign-detection component

    A shallow embedding of [src/components/SignDetection.tsx].  The file holds
    two revisions of the component: the earlier one sends the landmarks to a
    remote [detect-sign] function ([Module Remote]); the later one classifies
    them in the browser with [classifyGesture] ([Module Local]).

    JavaScript numbers are IEEE-754 binary64 values, which is what Rocq's
    primitive floats are, so landmark coordinates and confidences are
    [float]s and [<] is [PrimFloat.ltb] (false as soon as one side is NaN). *)

From Stdlib Require Import Bool Arith ZArith Lia List String Ascii Floats.
Import ListNotations.

(* A decimal literal denotes the nearest binary64 value, as in JavaScript. *)
Set Warnings "-inexact-float".

Local Open Scope string_scope.
Local Open Scope list_scope.

(** ** JavaScript values used by the component *)

Module JS.

(** [Boolean(s)] for a string: only the empty string is falsy. *)
Definition truthy (s : string) : bool :=
  match s with
  | EmptyString => false
  | String _ _ => true
  end.

(** [s.split(' ')]: the pieces between single spaces.  The empty string
    splits into one empty piece, and two spaces in a row give an empty
    piece between them. *)
Fixpoint split (s : string) : list string :=
  match s with
  | EmptyString => [EmptyString]
  | String c rest =>
      if Ascii.eqb c " "%char then EmptyString :: split rest
      else match split rest with
           | w :: ws => String c w :: ws
           | [] => [String c EmptyString]
           end
  end.

(** [arr[arr.length - 1]]: [undefined] on the empty array. *)
Definition last_elem {A : Type} (l : list A) : option A :=
  match rev l with
  | [] => None
  | x :: _ => Some x
  end.

(** A coordinate read [p[i]] on a [number[]].  Out of range the read gives
    [undefined], and both uses in the classifier ([<] and [-]) turn that
    into NaN. *)
Definition coord (p : list float) (i : nat) : float := nth i p nan.

(** What [Math] provides.  ECMAScript leaves the precision of [Math.pow]
    and [Math.sqrt] to the implementation, so the classifier is stated
    over any pair of such functions. *)
Record MathLib : Type := {
  Math_sqrt : float -> float;
  Math_pow : float -> float -> float
}.

(** An implementation to evaluate with: the correctly rounded square root,
    and a power given at the exponents 0, 1 and 2 only (the classifier
    squares). *)
Definition ieeeMath : MathLib := {|
  Math_sqrt := PrimFloat.sqrt;
  Math_pow := fun x y =>
    if PrimFloat.eqb y 2 then PrimFloat.mul x x
    else if PrimFloat.eqb y 1 then x
    else if PrimFloat.eqb y 0 then 1%float
    else nan
|}.

End JS.

(** ** Array reads with a trace

    [landmarks[i]] never throws by itself: out of range it is [undefined].
    Reading a property of [undefined] throws a [TypeError].  A computation
    carries the list of indices it has read from [landmarks] and either a
    value or the thrown error. *)

Inductive Thrown : Type :=
| ErrorObject (name message : string)  (* [err instanceof Error] holds *)
| OtherValue.                          (* anything else that was thrown *)

Inductive completion (A : Type) : Type :=
| Normal (a : A)
| Throw (e : Thrown).
Arguments Normal {A} a.
Arguments Throw {A} e.

Definition Reads (A : Type) : Type := (list nat * completion A)%type.

Definition ret {A : Type} (a : A) : Reads A := ([], Normal a).

Definition bind {A B : Type} (m : Reads A) (k : A -> Reads B) : Reads B :=
  match m with
  | (r1, Normal a) => let '(r2, c) := k a in (r1 ++ r2, c)
  | (r1, Throw e) => (r1, Throw e)
  end.

Declare Scope reads_scope.
Delimit Scope reads_scope with reads.
Notation "x <- m ;; k" := (bind m (fun x => k))
  (at level 61, m at next level, right associativity) : reads_scope.

(** [const v = landmarks[i]] *)
Definition at_index (landmarks : list (list float)) (i : nat)
  : Reads (option (list float)) :=
  ([i], Normal (nth_error landmarks i)).

(** [v[j]] where [v] came from [landmarks]: throws when [v] is [undefined]. *)
Definition prop (v : option (list float)) (j : nat) : Reads float :=
  match v with
  | Some p => ret (JS.coord p j)
  | None =>
      ([], Throw (ErrorObject "TypeError" "Cannot read properties of undefined"))
  end.

(** ** The classifier *)

Record GestureResult : Type := {
  gesture : string;
  confidence : float
}.

Section Classifier.

Variable M : JS.MathLib.

Definition classifyGesture (landmarks : list (list float))
  : Reads (option GestureResult) :=
  (* an array is always truthy, so [!landmarks] is false here *)
  (if negb (Nat.eqb (List.length landmarks) 21) then ret None else
  wrist <- at_index landmarks 0 ;;
  thumbTip <- at_index landmarks 4 ;;
  indexTip <- at_index landmarks 8 ;;
  middleTip <- at_index landmarks 12 ;;
  ringTip <- at_index landmarks 16 ;;
  pinkyTip <- at_index landmarks 20 ;;
  indexMcp <- at_index landmarks 5 ;;
  middleMcp <- at_index landmarks 9 ;;
  ringMcp <- at_index landmarks 13 ;;
  pinkyMcp <- at_index landmarks 17 ;;
  thumbTip0 <- prop thumbTip 0 ;;
  landmarks3 <- at_index landmarks 3 ;;
  landmarks3_0 <- prop landmarks3 0 ;;
  let thumbExtended := PrimFloat.ltb thumbTip0 landmarks3_0 in
  indexTip1 <- prop indexTip 1 ;;
  indexMcp1 <- prop indexMcp 1 ;;
  let indexExtended := PrimFloat.ltb indexTip1 indexMcp1 in
  middleTip1 <- prop middleTip 1 ;;
  middleMcp1 <- prop middleMcp 1 ;;
  let middleExtended := PrimFloat.ltb middleTip1 middleMcp1 in
  ringTip1 <- prop ringTip 1 ;;
  ringMcp1 <- prop ringMcp 1 ;;
  let ringExtended := PrimFloat.ltb ringTip1 ringMcp1 in
  pinkyTip1 <- prop pinkyTip 1 ;;
  pinkyMcp1 <- prop pinkyMcp 1 ;;
  let pinkyExtended := PrimFloat.ltb pinkyTip1 pinkyMcp1 in
  let extendedCount :=
    List.length (filter (fun b : bool => b)
              [indexExtended; middleExtended; ringExtended; pinkyExtended]) in
  if thumbExtended && Nat.eqb extendedCount 0 then
    ret (Some {| gesture := "Yes"; confidence := 0.85 |})
  else if indexExtended && middleExtended && negb ringExtended
          && negb pinkyExtended then
    ret (Some {| gesture := "2"; confidence := 0.82 |})
  else if indexExtended && negb middleExtended && negb ringExtended
          && negb pinkyExtended then
    ret (Some {| gesture := "1"; confidence := 0.85 |})
  else if indexExtended && middleExtended && ringExtended
          && negb pinkyExtended then
    ret (Some {| gesture := "3"; confidence := 0.80 |})
  else if indexExtended && middleExtended && ringExtended && pinkyExtended
          && negb thumbExtended then
    ret (Some {| gesture := "4"; confidence := 0.80 |})
  else if thumbExtended && indexExtended && middleExtended && ringExtended
          && pinkyExtended then
    ret (Some {| gesture := "Hello"; confidence := 0.88 |})
  else if thumbExtended && indexExtended && negb middleExtended
          && negb ringExtended && pinkyExtended then
    ret (Some {| gesture := "I Love You"; confidence := 0.85 |})
  else if negb thumbExtended && Nat.eqb extendedCount 0 then
    ret (Some {| gesture := "No"; confidence := 0.80 |})
  else
  thumbTip0' <- prop thumbTip 0 ;;
  indexTip0 <- prop indexTip 0 ;;
  thumbTip1 <- prop thumbTip 1 ;;
  indexTip1' <- prop indexTip 1 ;;
  let thumbIndexDist :=
    JS.Math_sqrt M
      (PrimFloat.add
         (JS.Math_pow M (PrimFloat.sub thumbTip0' indexTip0) 2)
         (JS.Math_pow M (PrimFloat.sub thumbTip1 indexTip1') 2)) in
  if PrimFloat.ltb thumbIndexDist 0.1 && middleExtended && ringExtended
     && pinkyExtended then
    ret (Some {| gesture := "Thank You"; confidence := 0.82 |})
  else ret None)%reads.

End Classifier.



(** ** The component

    The React state of [SignDetection], the two refs the later revision keeps
    for the stability gate, and three logs standing for the world outside:
    the arguments [onDetection] was called with, the requests sent to the
    [translate-text] function (text and target language), and the lines
    written to the console.  The DOM refs (video, canvas, stream, animation
    frame, tracker handle) carry no information the properties below read
    and are left out.  [shownConfidence] is the [confidence] state. *)

Record Props : Type := {
  language : string;
  onDetection : bool   (* whether the parent supplied the callback *)
}.

Record State : Type := {
  isActive : bool;
  isLoading : bool;
  error : option string;
  detectedText : string;
  currentGesture : string;
  shownConfidence : float;
  isDetecting : bool;
  handDetected : bool;
  lastGestureRef : string;
  gestureCountRef : nat;
  onDetectionCalls : list string;
  translateCalls : list (string * string);
  console : list string
}.

Definition initialState : State := {|
  isActive := false; isLoading := false; error := None;
  detectedText := ""; currentGesture := ""; shownConfidence := 0;
  isDetecting := false; handDetected := false;
  lastGestureRef := ""; gestureCountRef := 0;
  onDetectionCalls := []; translateCalls := []; console := []
|}.

Definition setIsActive (v : bool) (st : State) : State :=
  {| isActive := v; isLoading := isLoading st; error := error st;
     detectedText := detectedText st; currentGesture := currentGesture st;
     shownConfidence := shownConfidence st; isDetecting := isDetecting st;
     handDetected := handDetected st; lastGestureRef := lastGestureRef st;
     gestureCountRef := gestureCountRef st;
     onDetectionCalls := onDetectionCalls st;
     translateCalls := translateCalls st; console := console st |}.

Definition setIsLoading (v : bool) (st : State) : State :=
  {| isActive := isActive st; isLoading := v; error := error st;
     detectedText := detectedText st; currentGesture := currentGesture st;
     shownConfidence := shownConfidence st; isDetecting := isDetecting st;
     handDetected := handDetected st; lastGestureRef := lastGestureRef st;
     gestureCountRef := gestureCountRef st;
     onDetectionCalls := onDetectionCalls st;
     translateCalls := translateCalls st; console := console st |}.

Definition setError (v : option string) (st : State) : State :=
  {| isActive := isActive st; isLoading := isLoading st; error := v;
     detectedText := detectedText st; currentGesture := currentGesture st;
     shownConfidence := shownConfidence st; isDetecting := isDetecting st;
     handDetected := handDetected st; lastGestureRef := lastGestureRef st;
     gestureCountRef := gestureCountRef st;
     onDetectionCalls := onDetectionCalls st;
     translateCalls := translateCalls st; console := console st |}.

Definition setDetectedText (v : string) (st : State) : State :=
  {| isActive := isActive st; isLoading := isLoading st; error := error st;
     detectedText := v; currentGesture := currentGesture st;
     shownConfidence := shownConfidence st; isDetecting := isDetecting st;
     handDetected := handDetected st; lastGestureRef := lastGestureRef st;
     gestureCountRef := gestureCountRef st;
     onDetectionCalls := onDetectionCalls st;
     translateCalls := translateCalls st; console := console st |}.

Definition setCurrentGesture (v : string) (st : State) : State :=
  {| isActive := isActive st; isLoading := isLoading st; error := error st;
     detectedText := detectedText st; currentGesture := v;
     shownConfidence := shownConfidence st; isDetecting := isDetecting st;
     handDetected := handDetected st; lastGestureRef := lastGestureRef st;
     gestureCountRef := gestureCountRef st;
     onDetectionCalls := onDetectionCalls st;
     translateCalls := translateCalls st; console := console st |}.

Definition setConfidence (v : float) (st : State) : State :=
  {| isActive := isActive st; isLoading := isLoading st; error := error st;
     detectedText := detectedText st; currentGesture := currentGesture st;
     shownConfidence := v; isDetecting := isDetecting st;
     handDetected := handDetected st; lastGestureRef := lastGestureRef st;
     gestureCountRef := gestureCountRef st;
     onDetectionCalls := onDetectionCalls st;
     translateCalls := translateCalls st; console := console st |}.

Definition setIsDetecting (v : bool) (st : State) : State :=
  {| isActive := isActive st; isLoading := isLoading st; error := error st;
     detectedText := detectedText st; currentGesture := currentGesture st;
     shownConfidence := shownConfidence st; isDetecting := v;
     handDetected := handDetected st; lastGestureRef := lastGestureRef st;
     gestureCountRef := gestureCountRef st;
     onDetectionCalls := onDetectionCalls st;
     translateCalls := translateCalls st; console := console st |}.

Definition setHandDetected (v : bool) (st : State) : State :=
  {| isActive := isActive st; isLoading := isLoading st; error := error st;
     detectedText := detectedText st; currentGesture := currentGesture st;
     shownConfidence := shownConfidence st; isDetecting := isDetecting st;
     handDetected := v; lastGestureRef := lastGestureRef st;
     gestureCountRef := gestureCountRef st;
     onDetectionCalls := onDetectionCalls st;
     translateCalls := translateCalls st; console := console st |}.

Definition setLastGestureRef (v : string) (st : State) : State :=
  {| isActive := isActive st; isLoading := isLoading st; error := error st;
     detectedText := detectedText st; currentGesture := currentGesture st;
     shownConfidence := shownConfidence st; isDetecting := isDetecting st;
     handDetected := handDetected st; lastGestureRef := v;
     gestureCountRef := gestureCountRef st;
     onDetectionCalls := onDetectionCalls st;
     translateCalls := translateCalls st; console := console st |}.

Definition setGestureCountRef (v : nat) (st : State) : State :=
  {| isActive := isActive st; isLoading := isLoading st; error := error st;
     detectedText := detectedText st; currentGesture := currentGesture st;
     shownConfidence := shownConfidence st; isDetecting := isDetecting st;
     handDetected := handDetected st; lastGestureRef := lastGestureRef st;
     gestureCountRef := v; onDetectionCalls := onDetectionCalls st;
     translateCalls := translateCalls st; console := console st |}.

Definition setOnDetectionCalls (v : list string) (st : State) : State :=
  {| isActive := isActive st; isLoading := isLoading st; error := error st;
     detectedText := detectedText st; currentGesture := currentGesture st;
     shownConfidence := shownConfidence st; isDetecting := isDetecting st;
     handDetected := handDetected st; lastGestureRef := lastGestureRef st;
     gestureCountRef := gestureCountRef st; onDetectionCalls := v;
     translateCalls := translateCalls st; console := console st |}.

Definition setTranslateCalls (v : list (string * string)) (st : State) : State :=
  {| isActive := isActive st; isLoading := isLoading st; error := error st;
     detectedText := detectedText st; currentGesture := currentGesture st;
     shownConfidence := shownConfidence st; isDetecting := isDetecting st;
     handDetected := handDetected st; lastGestureRef := lastGestureRef st;
     gestureCountRef := gestureCountRef st;
     onDetectionCalls := onDetectionCalls st; translateCalls := v;
     console := console st |}.

Definition setConsole (v : list string) (st : State) : State :=
  {| isActive := isActive st; isLoading := isLoading st; error := error st;
     detectedText := detectedText st; currentGesture := currentGesture st;
     shownConfidence := shownConfidence st; isDetecting := isDetecting st;
     handDetected := handDetected st; lastGestureRef := lastGestureRef st;
     gestureCountRef := gestureCountRef st;
     onDetectionCalls := onDetectionCalls st;
     translateCalls := translateCalls st; console := v |}.

(** [onDetection?.(text)] *)
Definition callOnDetection (p : Props) (text : string) (st : State) : State :=
  if onDetection p then setOnDetectionCalls (onDetectionCalls st ++ [text]) st
  else st.

Definition logConsole (line : string) (st : State) : State :=
  setConsole (console st ++ [line]) st.

(** ** Effects: state and exceptions

    A piece of component code is run from a state and ends in a state with
    either a value or a thrown value.  An [await] either yields the value the
    promise resolved to or throws what it was rejected with. *)

Definition Eff (A : Type) : Type := State -> State * completion A.

Definition pure {A : Type} (a : A) : Eff A := fun st => (st, Normal a).

Definition andThen {A B : Type} (m : Eff A) (k : A -> Eff B) : Eff B :=
  fun st =>
    match m st with
    | (st', Normal a) => k a st'
    | (st', Throw e) => (st', Throw e)
    end.

Definition throw {A : Type} (e : Thrown) : Eff A := fun st => (st, Throw e).

(** [try { body } catch (err) { handler }] *)
Definition tryCatch {A : Type} (body : Eff A) (handler : Thrown -> Eff A)
  : Eff A :=
  fun st =>
    match body st with
    | (st', Normal a) => (st', Normal a)
    | (st', Throw e) => handler e st'
    end.

(** [try { body } finally { fin }] *)
Definition tryFinally {A : Type} (body : Eff A) (fin : Eff unit) : Eff A :=
  fun st =>
    match body st with
    | (st', c) =>
        match fin st' with
        | (st'', Normal _) => (st'', c)
        | (st'', Throw e) => (st'', Throw e)
        end
    end.

Definition update (f : State -> State) : Eff unit :=
  fun st => (f st, Normal tt).

Definition get : Eff State := fun st => (st, Normal st).

Definition await {A : Type} (settled : completion A) : Eff A :=
  fun st => (st, settled).

(** A call to an async function whose promise is dropped: what it throws
    never reaches the caller. *)
Definition fireAndForget (m : Eff unit) : Eff unit :=
  fun st => (fst (m st), Normal tt).

Definition exec {A : Type} (m : Eff A) (st : State) : State := fst (m st).

Declare Scope eff_scope.
Delimit Scope eff_scope with eff.
Notation "x <- m ;; k" := (andThen m (fun x => k))
  (at level 61, m at next level, right associativity) : eff_scope.
Notation "m ;; k" := (andThen m (fun _ => k))
  (at level 61, right associativity) : eff_scope.

(** ** Code shared by the two revisions *)

(** A landmark as the tracker delivers it. *)
Record Landmark : Type := { lm_x : float; lm_y : float; lm_z : float }.

(** [prev ? `${prev} ${displayText}` : displayText] *)
Definition appendText (prev displayText : string) : string :=
  if JS.truthy prev then prev ++ " " ++ displayText else displayText.

(** [supabase.functions.invoke('translate-text', ...)], awaited.  [answer] is
    how the call settles: resolved with [translationData?.translatedText]
    ([None] when the data or the field is missing), or rejected. *)
Definition invokeTranslate (text targetLanguage : string)
    (answer : completion (option string)) : Eff (option string) :=
  (update (fun st =>
     setTranslateCalls (translateCalls st ++ [(text, targetLanguage)]) st) ;;
   await answer)%eff.

(** [if (translationData?.translatedText) displayText = ...] *)
Definition translatedOr (displayText : string) (translatedText : option string)
  : string :=
  match translatedText with
  | Some t => if JS.truthy t then t else displayText
  | None => displayText
  end.

(** [clearText], the same in both revisions. *)
Definition clearText (p : Props) : Eff unit :=
  (update (setDetectedText "") ;;
   update (callOnDetection p ""))%eff.

(** ** The later revision: gestures classified in the browser *)

Module Local.

Local Open Scope eff_scope.

(** The updater handed to [setDetectedText] in [processGesture]. *)
Definition addIfDifferent (p : Props) (displayText : string) (st : State)
  : State :=
  let prev := detectedText st in
  let words := filter JS.truthy (JS.split prev) in
  let lastWord := JS.last_elem words in
  (* [lastWord !== displayText]; [undefined] differs from every string *)
  if match lastWord with
     | Some w => negb (String.eqb w displayText)
     | None => true
     end
  then
    let newText := appendText prev displayText in
    setDetectedText newText (callOnDetection p newText st)
  else st.

(** [processGesture].  The part after the [await] runs in a later task; here
    the call runs to its end before the next event, which is exact when the
    language is 'en' (no [await] is reached). *)
Definition processGesture (p : Props) (answer : completion (option string))
    (gesture : string) (conf : float) : Eff unit :=
  st <- get ;;
  (if String.eqb gesture (lastGestureRef st) then
     update (setGestureCountRef (S (gestureCountRef st)))
   else
     update (setLastGestureRef gesture) ;;
     update (setGestureCountRef 1)) ;;
  st <- get ;;
  if Nat.ltb (gestureCountRef st) 3 then pure tt else
  update (setCurrentGesture gesture) ;;
  update (setConfidence conf) ;;
  displayText <-
    (if negb (String.eqb (language p) "en") then
       tryCatch
         (translatedText <- invokeTranslate gesture (language p) answer ;;
          pure (translatedOr gesture translatedText))
         (fun err => update (logConsole "Translation error:") ;; pure gesture)
     else pure gesture) ;;
  update (addIfDifferent p displayText) ;;
  update (setGestureCountRef 0).

(** [[lm.x, lm.y, lm.z || 0]]: a [z] that is zero or NaN becomes 0. *)
Definition toArray (lm : Landmark) : list float :=
  [ lm_x lm; lm_y lm;
    if PrimFloat.eqb (lm_z lm) 0 || PrimFloat.is_nan (lm_z lm) then 0%float
    else lm_z lm ].

(** The [hands.onResults] callback with the canvas and the video mounted,
    drawing left out.  [due] says whether more than 800 ms have passed since
    the last processed detection. *)
Definition onResults (p : Props) (M : JS.MathLib)
    (multiHandLandmarks : list (list Landmark)) (due : bool)
    (answer : completion (option string)) : Eff unit :=
  match multiHandLandmarks with
  | landmarks :: _ =>
      update (setHandDetected true) ;;
      if due then
        update (setIsDetecting true) ;;
        result <- await (snd (classifyGesture M (map toArray landmarks))) ;;
        match result with
        | Some r =>
            fireAndForget (processGesture p answer (gesture r) (confidence r))
        | None => pure tt
        end ;;
        update (setIsDetecting false)
      else pure tt
  | [] => update (setHandDetected false)
  end.

Definition stopDetection : Eff unit :=
  update (setIsActive false) ;;
  update (setCurrentGesture "") ;;
  update (setConfidence 0) ;;
  update (setHandDetected false) ;;
  update (setLastGestureRef "") ;;
  update (setGestureCountRef 0).

(** How loading the tracker script settles. *)
Inductive ScriptLoad : Type :=
| AlreadyLoaded                 (* [window.Hands] is there *)
| Loaded (handsDefined : bool)  (* [onload]; is [window.Hands] defined now? *)
| LoadFailed.                   (* [onerror] *)

(** What the browser does during [startDetection]; every awaited promise is
    taken to settle.  Drawing on the canvas is left out, and so is the frame
    loop, whose [send] has a [try]/[catch] of its own. *)
Record StartEnv : Type := {
  getUserMedia : completion unit;
  elementsMounted : bool;       (* [videoRef.current && canvasRef.current] *)
  videoReady : completion unit; (* metadata loaded and [play()] settled *)
  scriptLoad : ScriptLoad;
  handsSetup : completion unit  (* [new HandsClass], [setOptions], [onResults] *)
}.

Definition loadScript (env : StartEnv) : Eff bool :=
  match scriptLoad env with
  | AlreadyLoaded => pure true
  | Loaded handsDefined => pure handsDefined
  | LoadFailed => throw (ErrorObject "Error" "Failed to load MediaPipe")
  end.

Definition startDetection (env : StartEnv) : Eff unit :=
  update (setError None) ;;
  update (setIsLoading true) ;;
  tryCatch
    (await (getUserMedia env) ;;
     (if negb (elementsMounted env) then
        throw (ErrorObject "Error" "Video elements not ready")
      else pure tt) ;;
     await (videoReady env) ;;
     update (setIsActive true) ;;
     update (setIsLoading false) ;;
     tryCatch
       (HandsClass <- loadScript env ;;
        if HandsClass then await (handsSetup env) else pure tt)
       (fun mpError =>
          update (logConsole "MediaPipe not available, using camera only mode:")))
    (fun err =>
       update (logConsole "Camera error:") ;;
       update (setIsLoading false) ;;
       match err with
       | ErrorObject name message =>
           if String.eqb name "NotAllowedError" then
             update (setError (Some
               "Camera access denied. Please allow camera access in your browser settings and refresh the page."))
           else if String.eqb name "NotFoundError" then
             update (setError (Some
               "No camera found. Please connect a camera and try again."))
           else
             update (setError (Some
               (if JS.truthy message then message
                else "Failed to start camera. Please try again.")))
       | OtherValue => pure tt
       end).

(** What can happen to a mounted component. *)
Inductive Event : Type :=
| Results (multiHandLandmarks : list (list Landmark)) (due : bool)
          (answer : completion (option string))
| ClearText
| StopDetection.

Definition step (p : Props) (M : JS.MathLib) (st : State) (e : Event) : State :=
  match e with
  | Results hands due answer => exec (onResults p M hands due answer) st
  | ClearText => exec (clearText p) st
  | StopDetection => exec stopDetection st
  end.

Definition run (p : Props) (M : JS.MathLib) (events : list Event) : State :=
  fold_left (step p M) events initialState.

End Local.

(** ** The earlier revision: gestures detected by a remote function *)

Module Remote.

Local Open Scope eff_scope.

(** The [data] of a [detect-sign] reply. *)
Record DetectData : Type := {
  detected : bool;
  gesture : string;
  confidence : float
}.

(** [{ data, error }] as [supabase.functions.invoke] resolves. *)
Record DetectReply : Type := {
  data : option DetectData;
  funcError : bool
}.

(** The updater handed to [setDetectedText] in [processLandmarks]. *)
Definition addText (p : Props) (displayText : string) (st : State) : State :=
  let newText := appendText (detectedText st) displayText in
  setDetectedText newText (callOnDetection p newText st).

(** [processLandmarks].  As for the later revision, the call runs to its end
    before the next event. *)
Definition processLandmarks (p : Props) (reply : completion DetectReply)
    (answer : completion (option string)) (landmarks : list Landmark)
  : Eff unit :=
  if Nat.eqb (List.length landmarks) 0 then pure tt else
  update (setIsDetecting true) ;;
  tryFinally
    (tryCatch
       (r <- await reply ;;
        if funcError r then update (logConsole "Detection error:")
        else
          match data r with
          | Some d =>
              if detected d && JS.truthy (gesture d) then
                update (setCurrentGesture (gesture d)) ;;
                update (setConfidence (confidence d)) ;;
                displayText <-
                  (if negb (String.eqb (language p) "en") then
                     translatedText <-
                       invokeTranslate (gesture d) (language p) answer ;;
                     pure (translatedOr (gesture d) translatedText)
                   else pure (gesture d)) ;;
                update (addText p displayText)
              else pure tt
          | None => pure tt
          end)
       (fun err => update (logConsole "Processing error:")))
    (update (setIsDetecting false)).

Definition stopDetection : Eff unit :=
  update (setIsActive false) ;;
  update (setCurrentGesture "") ;;
  update (setConfidence 0).

(** How loading the tracker script settles. *)
Inductive ScriptLoad : Type :=
| AlreadyLoaded                 (* [window.Hands] is there *)
| Loaded (handsDefined : bool)  (* [onload]; is [window.Hands] defined now? *)
| LoadFailed.                   (* [onerror] *)

(** What the browser does during [startDetection]; every awaited promise is
    taken to settle.  The frame loop [detectFrame()] is started without
    being awaited and is not part of the call. *)
Record StartEnv : Type := {
  scriptLoad : ScriptLoad;
  handsSetup : completion unit; (* [new HandsConstructor], [setOptions], [onResults] *)
  getUserMedia : completion unit;
  elementsMounted : bool        (* [videoRef.current && canvasRef.current] *)
}.

Definition loadMediaPipeScript (env : StartEnv) : Eff bool :=
  match scriptLoad env with
  | AlreadyLoaded => pure true
  | Loaded handsDefined => pure handsDefined
  | LoadFailed => throw (ErrorObject "Error" "Failed to load MediaPipe Hands")
  end.

Definition initializeMediaPipe (env : StartEnv) : Eff unit :=
  tryCatch
    (HandsConstructor <- loadMediaPipeScript env ;;
     (if negb HandsConstructor then
        throw (ErrorObject "Error" "MediaPipe Hands not available")
      else pure tt) ;;
     await (handsSetup env))
    (fun err =>
       update (logConsole "Failed to initialize MediaPipe:") ;;
       throw (ErrorObject "Error"
                "Failed to load hand tracking. Please try again.")).

Definition startDetection (env : StartEnv) : Eff unit :=
  update (setError None) ;;
  update (setIsLoading true) ;;
  tryFinally
    (tryCatch
       (initializeMediaPipe env ;;
        await (getUserMedia env) ;;
        if elementsMounted env then update (setIsActive true) else pure tt)
       (fun err =>
          update (logConsole "Camera/Detection error:") ;;
          match err with
          | ErrorObject name message =>
              if String.eqb name "NotAllowedError" then
                update (setError (Some
                  "Camera access denied. Please allow camera access in your browser settings."))
              else if String.eqb name "NotFoundError" then
                update (setError (Some
                  "No camera found. Please connect a camera and try again."))
              else
                update (setError (Some
                  (if JS.truthy message then message
                   else "Failed to start detection. Please try again.")))
          | OtherValue => pure tt
          end))
    (update (setIsLoading false)).

(** What can happen to a mounted component.  [Landmarks] is a frame with a
    hand that passes the 500 ms throttle. *)
Inductive Event : Type :=
| Landmarks (landmarks : list Landmark) (reply : completion DetectReply)
            (answer : completion (option string))
| ClearText
| StopDetection.

Definition step (p : Props) (st : State) (e : Event) : State :=
  match e with
  | Landmarks landmarks reply answer =>
      exec (fireAndForget (processLandmarks p reply answer landmarks)) st
  | ClearText => exec (clearText p) st
  | StopDetection => exec stopDetection st
  end.

Definition run (p : Props) (events : list Event) : State :=
  fold_left (step p) events initialState.

End Remote.

(** ** Vocabulary for the classifier's properties *)

(** The landmark at index [i] and its coordinates, for stating properties. *)
Definition landmark (landmarks : list (list float)) (i : nat) : list float :=
  nth i landmarks [].

Definition xOf (p : list float) : float := JS.coord p 0.

Definition yOf (p : list float) : float := JS.coord p 1.

(** The indices the classifier reads on a 21-landmark input, in order. *)
Definition reads21 : list nat := [0; 4; 8; 12; 16; 20; 5; 9; 13; 17; 3].

(** The nine rules, as label and confidence. *)
Definition rule_table : list (string * float) :=
  [ ("Yes", 0.85%float); ("2", 0.82%float); ("1", 0.85%float);
    ("3", 0.80%float); ("4", 0.80%float); ("Hello", 0.88%float);
    ("I Love You", 0.85%float); ("No", 0.80%float);
    ("Thank You", 0.82%float) ].

Ltac explode_landmarks l :=
  do 21 (destruct l as [| ? l]; [ discriminate | ]);
  destruct l; [ | discriminate ].

Ltac split_fingers :=
  repeat match goal with
         | |- context [PrimFloat.ltb ?a ?b] =>
             let e := fresh "e" in destruct (PrimFloat.ltb a b) eqn:e
         end.

(** The nine gesture labels. *)
Definition labels : list string :=
  ["Yes"; "No"; "Hello"; "1"; "2"; "3"; "4"; "I Love You"; "Thank You"].

(** A closed fist with the thumb tucked in: every coordinate is zero. *)
Definition fist : list (list float) := repeat [0; 0; 0]%float 21.

(** An open hand: finger tips above their knuckles, thumb tip to the left of
    landmark 3. *)
Definition openHand : list (list float) :=
  [ [0.5; 0.9; 0]; [0.4; 0.8; 0]; [0.35; 0.7; 0]; [0.3; 0.6; 0];
    [0.2; 0.5; 0];
    [0.4; 0.5; 0]; [0.4; 0.4; 0]; [0.4; 0.3; 0]; [0.4; 0.2; 0];
    [0.5; 0.5; 0]; [0.5; 0.4; 0]; [0.5; 0.3; 0]; [0.5; 0.15; 0];
    [0.6; 0.5; 0]; [0.6; 0.4; 0]; [0.6; 0.3; 0]; [0.6; 0.2; 0];
    [0.7; 0.55; 0]; [0.7; 0.45; 0]; [0.7; 0.4; 0]; [0.7; 0.3; 0] ]%float.

(** ** Vocabulary for the text's properties *)

Definition is_space (c : ascii) : bool := Ascii.eqb c " "%char.

Definition leading_space (s : string) : bool :=
  match s with
  | String c _ => is_space c
  | EmptyString => false
  end.

Fixpoint trailing_space (s : string) : bool :=
  match s with
  | EmptyString => false
  | String c EmptyString => is_space c
  | String _ rest => trailing_space rest
  end.

Fixpoint doubled_space (s : string) : bool :=
  match s with
  | String a rest =>
      match rest with
      | String b _ => (is_space a && is_space b) || doubled_space rest
      | EmptyString => false
      end
  | EmptyString => false
  end.

(** No leading, trailing or doubled space. *)
Definition tidy (s : string) : bool :=
  negb (leading_space s) && negb (trailing_space s) && negb (doubled_space s).

(** A label that is not empty and is tidy by itself. *)
Definition clean (s : string) : bool := JS.truthy s && tidy s.

(** The words of a text, as [processGesture] takes them. *)
Definition words (s : string) : list string := filter JS.truthy (JS.split s).

(** Two equal words next to each other. *)
Fixpoint adjacent_equal (ws : list string) : bool :=
  match ws with
  | a :: rest =>
      match rest with
      | b :: _ => String.eqb a b || adjacent_equal rest
      | [] => false
      end
  | [] => false
  end.

(** The last words the nine labels can leave at the end of the text. *)
Definition last_words : list string :=
  ["Yes"; "No"; "Hello"; "1"; "2"; "3"; "4"; "You"].

(** An answer of the translation function that, if used, is a clean label. *)
Definition clean_answer (answer : completion (option string)) : bool :=
  match answer with
  | Normal (Some t) => negb (JS.truthy t) || clean t
  | _ => true
  end.

(** An answer that leaves the English label in place: the call was rejected
    or gave no translated text. *)
Definition untranslated (answer : completion (option string)) : bool :=
  match answer with
  | Normal (Some t) => negb (JS.truthy t)
  | _ => true
  end.

(** A hand of 21 landmarks with every joint at (0.5, 0.5, 0) but for the
    five finger tips. *)
Definition pose (thumbTip indexTip middleTip ringTip pinkyTip : list float)
  : list (list float) :=
  let o := [0.5; 0.5; 0]%float in
  [ o; o; o; o; thumbTip; o; o; o; indexTip; o; o; o; middleTip;
    o; o; o; ringTip; o; o; o; pinkyTip ].

Definition tipUp : list float := [0.5; 0.3; 0]%float.
Definition tipDown : list float := [0.5; 0.7; 0]%float.
Definition thumbOut : list float := [0.4; 0.5; 0]%float.
Definition thumbIn : list float := [0.6; 0.5; 0]%float.

(** ** Vocabulary for the stability gate *)

(** The counter as the first lines of [processGesture] leave it. *)
Definition countedAs (gesture : string) (st : State) : nat :=
  if String.eqb gesture (lastGestureRef st) then S (gestureCountRef st) else 1.

(** Whether a call of [processGesture] gets past [if (count < 3) return]. *)
Definition publishes (gesture : string) (st : State) : bool :=
  negb (Nat.ltb (countedAs gesture st) 3).

(** The label an event hands to [processGesture], if it does. *)
Definition processed (M : JS.MathLib) (e : Local.Event) : option string :=
  match e with
  | Local.Results (landmarks :: _) true _ =>
      match snd (classifyGesture M (map Local.toArray landmarks)) with
      | Normal (Some r) => Some (gesture r)
      | _ => None
      end
  | _ => None
  end.


(** Events whose translation answers are clean labels. *)
Definition clean_event (e : Local.Event) : bool :=
  match e with
  | Local.Results _ _ answer => clean_answer answer
  | _ => true
  end.

Definition clean_remote_event (e : Remote.Event) : bool :=
  match e with
  | Remote.Landmarks _ (Normal r) answer =>
      match Remote.data r with
      | Some d =>
          (negb (JS.truthy (Remote.gesture d)) || clean (Remote.gesture d))
          && clean_answer answer
      | None => true
      end
  | _ => true
  end.

(** A hand as the tracker delivers it, from landmark arrays. *)
Definition asHand (points : list (list float)) : list Landmark :=
  map (fun p => {| lm_x := JS.coord p 0; lm_y := JS.coord p 1;
                   lm_z := JS.coord p 2 |}) points.

Definition enProps : Props := {| language := "en"; onDetection := true |}.
Definition esProps : Props := {| language := "es"; onDetection := true |}.

(** A processed frame showing a closed fist. *)
Definition fistFrame (answer : completion (option string)) : Local.Event :=
  Local.Results [asHand fist] true answer.

(** ** Closed forms of [processGesture], for the proofs *)

(** The state after the counting lines of [processGesture]. *)
Definition counted (gesture : string) (st : State) : State :=
  setGestureCountRef (countedAs gesture st) (setLastGestureRef gesture st).

(** The text [processGesture] goes on to display. *)
Definition displayLabel (p : Props) (answer : completion (option string))
    (gesture : string) : string :=
  if String.eqb (language p) "en" then gesture
  else match answer with
       | Normal translatedText => translatedOr gesture translatedText
       | Throw _ => gesture
       end.

(** What a published gesture leaves in the logs before the text is touched. *)
Definition translationLogs (p : Props) (answer : completion (option string))
    (gesture : string) (st : State) : State :=
  if String.eqb (language p) "en" then st
  else
    let st' :=
      setTranslateCalls (translateCalls st ++ [(gesture, language p)]) st in
    match answer with
    | Normal _ => st'
    | Throw _ => logConsole "Translation error:" st'
    end.

Ltac eff :=
  unfold andThen, update, pure, get, throw, tryCatch, tryFinally, await,
    fireAndForget, exec in *.

(** The text [addIfDifferent] leaves, from the text it finds. *)
Definition distinctAppend (prev displayText : string) : string :=
  match JS.last_elem (words prev) with
  | Some w => if String.eqb w displayText then prev
              else appendText prev displayText
  | None => appendText prev displayText
  end.

(** An answer that resolved without a translated text. *)
Definition resolved_untranslated (answer : completion (option string)) : bool :=
  match answer with
  | Normal (Some t) => negb (JS.truthy t)
  | Normal None => true
  | Throw _ => false
  end.

(** The reply of the remote detection that reports [d] without an error. *)
Definition reporting (d : Remote.DetectData) : completion Remote.DetectReply :=
  Normal {| Remote.data := Some d; Remote.funcError := false |}.

(** A hand of 21 landmarks at the origin. *)
Definition someHand : list Landmark := asHand fist.

(** A text that is a space-joined sequence of clean labels. *)
Definition Joined (text : string) : Prop :=
  exists ls, Forall (fun l => clean l = true) ls /\ text = String.concat " " ls.

(** The label a [processLandmarks] call goes on to append, if it does. *)
Definition appended (p : Props) (reply : completion Remote.DetectReply)
    (answer : completion (option string)) : option string :=
  match reply with
  | Normal r =>
      if Remote.funcError r then None
      else
        match Remote.data r with
        | Some d =>
            if Remote.detected d && JS.truthy (Remote.gesture d) then
              if String.eqb (language p) "en" then Some (Remote.gesture d)
              else match answer with
                   | Normal t => Some (translatedOr (Remote.gesture d) t)
                   | Throw _ => None
                   end
            else None
        | None => None
        end
  | Throw _ => None
  end.

(** A processed frame showing an open hand. *)
Definition openHandFrame (answer : completion (option string)) : Local.Event :=
  Local.Results [asHand openHand] true answer.

(** What the invariant needs of a text: no equal neighbours, and a last word
    that one of the nine labels can leave. *)
Definition settled (text : string) : Prop :=
  adjacent_equal (words text) = false /\
  forall w, JS.last_elem (words text) = Some w -> In w last_words.


(** ** Vocabulary for [startDetection] *)

(** A browser in which the camera and the page elements are ready and the
    tracker script fails to load. *)
Definition trackerUnavailable : Local.StartEnv := {|
  Local.getUserMedia := Normal tt;
  Local.elementsMounted := true;
  Local.videoReady := Normal tt;
  Local.scriptLoad := Local.LoadFailed;
  Local.handsSetup := Normal tt
|}.

(** A browser in which the user has denied access to the camera. *)
Definition cameraDenied : Local.StartEnv := {|
  Local.getUserMedia :=
    Throw (ErrorObject "NotAllowedError" "Permission denied");
  Local.elementsMounted := true;
  Local.videoReady := Normal tt;
  Local.scriptLoad := Local.AlreadyLoaded;
  Local.handsSetup := Normal tt
|}.

(** A browser in which the camera is held by another program. *)
Definition cameraBusy : Local.StartEnv := {|
  Local.getUserMedia :=
    Throw (ErrorObject "NotReadableError" "Could not start video source");
  Local.elementsMounted := true;
  Local.videoReady := Normal tt;
  Local.scriptLoad := Local.AlreadyLoaded;
  Local.handsSetup := Normal tt
|}.

(** The tracker is ready in the earlier revision: the script is there, or
    loads and defines [Hands], and setting it up does not throw. *)
Definition trackerReady (env : Remote.StartEnv) : bool :=
  match Remote.scriptLoad env, Remote.handsSetup env with
  | Remote.AlreadyLoaded, Normal _ => true
  | Remote.Loaded true, Normal _ => true
  | _, _ => false
  end.

(** A processed frame showing the "Thank You" hand: index finger folded with
    the thumb tip on its tip, the other three fingers up. *)
Definition thankYouFrame (answer : completion (option string)) : Local.Event :=
  Local.Results [asHand (pose tipDown tipDown tipUp tipUp tipUp)] true answer.

(** ** The finger tests of the classifier, by name

    The five tests and the thumb-to-index distance that [classifyGesture]
    computes, as functions of the landmark list, for stating which hands
    give which label. *)

Definition thumbExtended (landmarks : list (list float)) : bool :=
  PrimFloat.ltb (xOf (landmark landmarks 4)) (xOf (landmark landmarks 3)).

Definition indexExtended (landmarks : list (list float)) : bool :=
  PrimFloat.ltb (yOf (landmark landmarks 8)) (yOf (landmark landmarks 5)).

Definition middleExtended (landmarks : list (list float)) : bool :=
  PrimFloat.ltb (yOf (landmark landmarks 12)) (yOf (landmark landmarks 9)).

Definition ringExtended (landmarks : list (list float)) : bool :=
  PrimFloat.ltb (yOf (landmark landmarks 16)) (yOf (landmark landmarks 13)).

Definition pinkyExtended (landmarks : list (list float)) : bool :=
  PrimFloat.ltb (yOf (landmark landmarks 20)) (yOf (landmark landmarks 17)).

Definition thumbIndexDist (M : JS.MathLib) (landmarks : list (list float))
  : float :=
  JS.Math_sqrt M
    (PrimFloat.add
       (JS.Math_pow M
          (PrimFloat.sub (xOf (landmark landmarks 4)) (xOf (landmark landmarks 8)))
          2)
       (JS.Math_pow M
          (PrimFloat.sub (yOf (landmark landmarks 4)) (yOf (landmark landmarks 8)))
          2)).

(** [thumbIndexDist < 0.1] *)
Definition thumbIndexNear (M : JS.MathLib) (landmarks : list (list float))
  : bool :=
  PrimFloat.ltb (thumbIndexDist M landmarks) 0.1.

(** The answer of [classifyGesture] on 21 landmarks. *)
Definition answerOf (M : JS.MathLib) (landmarks : list (list float))
  : completion (option GestureResult) :=
  snd (classifyGesture M landmarks).

Definition matched (g : string) (c : float)
  : completion (option GestureResult) :=
  Normal (Some {| gesture := g; confidence := c |}).

(** The rules of [classifyGesture] over the six tests, in the order of the
    source. *)
Definition ruleChain (t i m r p near : bool) : option GestureResult :=
  if t && negb (i || m || r || p) then
    Some {| gesture := "Yes"; confidence := 0.85 |}
  else if i && m && negb r && negb p then
    Some {| gesture := "2"; confidence := 0.82 |}
  else if i && negb m && negb r && negb p then
    Some {| gesture := "1"; confidence := 0.85 |}
  else if i && m && r && negb p then
    Some {| gesture := "3"; confidence := 0.80 |}
  else if i && m && r && p && negb t then
    Some {| gesture := "4"; confidence := 0.80 |}
  else if t && i && m && r && p then
    Some {| gesture := "Hello"; confidence := 0.88 |}
  else if t && i && negb m && negb r && p then
    Some {| gesture := "I Love You"; confidence := 0.85 |}
  else if negb t && negb (i || m || r || p) then
    Some {| gesture := "No"; confidence := 0.80 |}
  else if near && m && r && p then
    Some {| gesture := "Thank You"; confidence := 0.82 |}
  else None.

(** The finger patterns that no rule takes. *)
Definition unmatchedPattern (t i m r p near : bool) : bool :=
  (i && negb m && r)
  || (i && negb m && negb r && p && negb t)
  || (i && m && negb r && p)
  || (negb i && (m || r || p) && negb (near && m && r && p)).

(** A hand whose finger tips carry no coordinates. *)
Definition blindTips : list (list float) := pose [] [] [] [] [].

(** ** Drawing the hand

    The canvas is the list of the calls made on its 2-D context.  A piece of
    drawing code ends with the calls it made and either a value or a thrown
    value. *)

Inductive DrawCmd : Type :=
| Save
| Restore
| Scale (sx sy : float)
| ClearRect (x y w h : float)
| DrawImage (x y w h : float)
| SetStrokeStyle (style : string)
| SetLineWidth (w : float)
| SetFillStyle (style : string)
| BeginPath
| MoveTo (x y : float)
| LineTo (x y : float)
| Stroke
| Arc (x y radius startAngle endAngle : float)
| Fill.

Definition Drawing (A : Type) : Type := (list DrawCmd * completion A)%type.

Definition drawn {A : Type} (a : A) : Drawing A := ([], Normal a).

Definition draw (c : DrawCmd) : Drawing unit := ([c], Normal tt).

Definition thenDraw {A B : Type} (m : Drawing A) (k : A -> Drawing B)
  : Drawing B :=
  match m with
  | (c1, Normal a) => let '(c2, r) := k a in (c1 ++ c2, r)
  | (c1, Throw e) => (c1, Throw e)
  end.

Declare Scope draw_scope.
Delimit Scope draw_scope with draw.
Notation "x <- m ;; k" := (thenDraw m (fun x => k))
  (at level 61, m at next level, right associativity) : draw_scope.
Notation "m ;; k" := (thenDraw m (fun _ => k))
  (at level 61, right associativity) : draw_scope.

(** [for (const x of l) body] *)
Fixpoint forOf {A : Type} (body : A -> Drawing unit) (l : list A)
  : Drawing unit :=
  match l with
  | [] => drawn tt
  | x :: rest => (body x ;; forOf body rest)%draw
  end.

(** [point.x] or [point.y] where [point] came from [landmarks[i]]: throws
    when the point is [undefined]. *)
Definition field (point : option Landmark) (f : Landmark -> float)
  : Drawing float :=
  match point with
  | Some lm => drawn (f lm)
  | None =>
      ([], Throw (ErrorObject "TypeError" "Cannot read properties of undefined"))
  end.

Definition HAND_CONNECTIONS : list (nat * nat) :=
  [ (0, 1); (1, 2); (2, 3); (3, 4);
    (0, 5); (5, 6); (6, 7); (7, 8);
    (0, 9); (9, 10); (10, 11); (11, 12);
    (0, 13); (13, 14); (14, 15); (15, 16);
    (0, 17); (17, 18); (18, 19); (19, 20);
    (5, 9); (9, 13); (13, 17) ].

Definition Math_PI : float := 3.141592653589793%float.

(** [drawHandLandmarks], with the two numbers in which the revisions differ:
    the line width and the radius of the dots. *)
Definition drawHand (lineWidth radius : float) (landmarks : list Landmark)
    (width height : float) : Drawing unit :=
  (draw (SetStrokeStyle "#00FF00") ;;
   draw (SetLineWidth lineWidth) ;;
   forOf (fun connection : nat * nat =>
            let '(start, end_) := connection in
            let startPoint := nth_error landmarks start in
            let endPoint := nth_error landmarks end_ in
            draw BeginPath ;;
            sx <- field startPoint lm_x ;;
            sy <- field startPoint lm_y ;;
            draw (MoveTo (PrimFloat.mul sx width) (PrimFloat.mul sy height)) ;;
            ex <- field endPoint lm_x ;;
            ey <- field endPoint lm_y ;;
            draw (LineTo (PrimFloat.mul ex width) (PrimFloat.mul ey height)) ;;
            draw Stroke)
         HAND_CONNECTIONS ;;
   draw (SetFillStyle "#FF0000") ;;
   forOf (fun lm : Landmark =>
            draw BeginPath ;;
            draw (Arc (PrimFloat.mul (lm_x lm) width)
                      (PrimFloat.mul (lm_y lm) height)
                      radius 0 (PrimFloat.mul 2 Math_PI)) ;;
            draw Fill)
         landmarks)%draw.

Module RemoteCanvas.

(** [drawHandLandmarks(ctx, landmarks)] of the earlier revision, which takes
    the size from [ctx.canvas]. *)
Definition drawHandLandmarks (width height : float) (landmarks : list Landmark)
  : Drawing unit :=
  drawHand 2 4 landmarks width height.

End RemoteCanvas.

Module LocalCanvas.

(** [drawHandLandmarks(ctx, landmarks, width, height)] of the later
    revision. *)
Definition drawHandLandmarks (landmarks : list Landmark) (width height : float)
  : Drawing unit :=
  drawHand 3 5 landmarks width height.

(** The component with what [Local.onResults] leaves out: the canvas and the
    time of the last processed detection ([Date.now()] is a whole number of
    milliseconds). *)
Record Screen : Type := {
  ui : State;
  canvas : list DrawCmd;
  lastDetectionRef : Z
}.

Definition initialScreen : Screen :=
  {| ui := initialState; canvas := []; lastDetectionRef := 0 |}.

Definition onUi (f : State -> State) (s : Screen) : Screen :=
  {| ui := f (ui s); canvas := canvas s;
     lastDetectionRef := lastDetectionRef s |}.

Definition paint (cmds : list DrawCmd) (s : Screen) : Screen :=
  {| ui := ui s; canvas := canvas s ++ cmds;
     lastDetectionRef := lastDetectionRef s |}.

Definition setLastDetectionRef (now : Z) (s : Screen) : Screen :=
  {| ui := ui s; canvas := canvas s; lastDetectionRef := now |}.

(** The page as a callback finds it. *)
Record Page : Type := {
  mounted : bool;     (* [canvasRef.current && videoRef.current] *)
  context2d : bool;   (* [canvas.getContext('2d')] is not null *)
  width : float;      (* [canvas.width] *)
  height : float      (* [canvas.height] *)
}.

(** [{ x: 1 - lm.x, y: lm.y, z: lm.z }] *)
Definition mirror (lm : Landmark) : Landmark :=
  {| lm_x := PrimFloat.sub 1 (lm_x lm); lm_y := lm_y lm; lm_z := lm_z lm |}.

(** The whole [hands.onResults] callback of the later revision, called at
    time [now]. *)
Definition onResults (p : Props) (M : JS.MathLib) (page : Page) (now : Z)
    (multiHandLandmarks : list (list Landmark))
    (answer : completion (option string)) (s : Screen)
  : Screen * completion unit :=
  if negb (mounted page) then (s, Normal tt) else
  if negb (context2d page) then (s, Normal tt) else
  let s :=
    paint [ Save; Scale (-1) 1;
            DrawImage (PrimFloat.opp (width page)) 0 (width page) (height page);
            Restore ] s in
  match multiHandLandmarks with
  | landmarks :: _ =>
      let s := onUi (setHandDetected true) s in
      let mirroredLandmarks := map mirror landmarks in
      match drawHandLandmarks mirroredLandmarks (width page) (height page) with
      | (cmds, Throw e) => (paint cmds s, Throw e)
      | (cmds, Normal _) =>
          let s := paint cmds s in
          if (now - lastDetectionRef s >? 800)%Z then
            let s := setLastDetectionRef now s in
            let s := onUi (setIsDetecting true) s in
            match snd (classifyGesture M (map Local.toArray landmarks)) with
            | Throw e => (s, Throw e)
            | Normal result =>
                let s :=
                  match result with
                  | Some r =>
                      onUi (exec (fireAndForget
                                    (Local.processGesture p answer
                                       (gesture r) (confidence r)))) s
                  | None => s
                  end in
                (onUi (setIsDetecting false) s, Normal tt)
            end
          else (s, Normal tt)
      end
  | [] => (onUi (setHandDetected false) s, Normal tt)
  end.

(** What can happen to a mounted component, with the clock. *)
Inductive Event : Type :=
| OnResults (page : Page) (now : Z)
            (multiHandLandmarks : list (list Landmark))
            (answer : completion (option string))
| ClearText
| StopDetection.

Definition step (p : Props) (M : JS.MathLib) (s : Screen) (e : Event)
  : Screen :=
  match e with
  | OnResults page now hands answer =>
      fst (onResults p M page now hands answer s)
  | ClearText => onUi (exec (clearText p)) s
  | StopDetection => onUi (exec Local.stopDetection) s
  end.

Definition runFrom (p : Props) (M : JS.MathLib) (s : Screen)
    (events : list Event) : Screen :=
  fold_left (step p M) events s.

End LocalCanvas.

Definition isStroke (c : DrawCmd) : bool :=
  match c with Stroke => true | _ => false end.

Definition isDot (c : DrawCmd) : bool :=
  match c with Arc _ _ _ _ _ => true | _ => false end.

(** A tracker hand of [n] landmarks at the centre of the picture. *)
Definition centredHand (n : nat) : list Landmark :=
  repeat {| lm_x := 0.5; lm_y := 0.5; lm_z := 0 |} n.

(** A page with its canvas, 640 by 480. *)
Definition readyPage : LocalCanvas.Page :=
  {| LocalCanvas.mounted := true; LocalCanvas.context2d := true;
     LocalCanvas.width := 640; LocalCanvas.height := 480 |}.

(** What the user sees of the recognition: the gesture on display and the
    accumulated text. *)
Definition shown (st : State) : string * string :=
  (currentGesture st, detectedText st).


(** A callback at time [now] on a ready page, showing one hand. *)
Definition frameAt (now : Z) (points : list (list float)) : LocalCanvas.Event :=
  LocalCanvas.OnResults readyPage now [asHand points] (Normal None).


(** A text that is a space-joined sequence of the nine labels. *)
Definition JoinedLabels (text : string) : Prop :=
  exists ls, Forall (fun l => In l labels) ls /\ text = String.concat " " ls.

(** The parent has been told the text on display. *)
Definition parentInformed (st : State) : Prop :=
  (onDetectionCalls st = [] /\ detectedText st = "") \/
  JS.last_elem (onDetectionCalls st) = Some (detectedText st).



(** A reply of the remote detection that reports no gesture: the call was
    rejected, came back with an error, without data, with [detected] false
    or with an empty gesture. *)
Definition noGesture (reply : completion Remote.DetectReply) : bool :=
  match reply with
  | Throw _ => true
  | Normal r =>
      Remote.funcError r ||
      match Remote.data r with
      | Some d => negb (Remote.detected d && JS.truthy (Remote.gesture d))
      | None => true
      end
  end.

(** What a [processLandmarks] call with no gesture writes to the console. *)
Definition complaint (reply : completion Remote.DetectReply) : list string :=
  match reply with
  | Throw _ => ["Processing error:"]
  | Normal r => if Remote.funcError r then ["Detection error:"] else []
  end.

Definition frProps : Props := {| language := "fr"; onDetection := true |}.

(** A remote reply reporting "Hello". *)
Definition helloData : Remote.DetectData :=
  {| Remote.detected := true; Remote.gesture := "Hello";
     Remote.confidence := 0.9 |}.

(** A browser of the earlier revision in which everything works but the
    page elements are not there. *)
Definition remoteUnmounted : Remote.StartEnv := {|
  Remote.scriptLoad := Remote.AlreadyLoaded;
  Remote.handsSetup := Normal tt;
  Remote.getUserMedia := Normal tt;
  Remote.elementsMounted := false
|}.

(** The same for the later revision. *)
Definition localUnmounted : Local.StartEnv := {|
  Local.getUserMedia := Normal tt;
  Local.elementsMounted := false;
  Local.videoReady := Normal tt;
  Local.scriptLoad := Local.AlreadyLoaded;
  Local.handsSetup := Normal tt
|}.

(** A browser whose camera call is rejected with a value that is not an
    [Error]. *)
Definition cameraThrowsValue : Local.StartEnv := {|
  Local.getUserMedia := Throw OtherValue;
  Local.elementsMounted := true;
  Local.videoReady := Normal tt;
  Local.scriptLoad := Local.AlreadyLoaded;
  Local.handsSetup := Normal tt
|}.

(** The outcome of a start: nothing to show, or a message that is not empty
    with the camera state left as it was. *)
Definition quietOrExplained (st st' : State) : Prop :=
  error st' = None \/
  exists message,
    error st' = Some message /\ JS.truthy message = true /\
    isActive st' = isActive st.

(** A string with a space somewhere in it. *)
Fixpoint contains_space (s : string) : bool :=
  match s with
  | EmptyString => false
  | String c rest => is_space c || contains_space rest
  end.

(** ** What the later revision renders, and its button *)

Module LocalView.








End LocalView.


(** * Properties *)

(** ** The classifier *)

Lemma classifyGesture_short (M : JS.MathLib) (landmarks : list (list float)) :
  List.length landmarks <> 21 ->
  classifyGesture M landmarks = ([], Normal None).
Proof.
  intros Hlen. unfold classifyGesture.
  apply Nat.eqb_neq in Hlen. rewrite Hlen. reflexivity.
Qed.

Lemma classifyGesture_full (M : JS.MathLib) (landmarks : list (list float)) :
  List.length landmarks = 21 ->
  exists r,
    classifyGesture M landmarks = (reads21, Normal r) /\
    (r = None \/
     exists g, r = Some g /\ In (gesture g, confidence g) rule_table).
Proof.
  intros Hlen. explode_landmarks landmarks.
  unfold classifyGesture, at_index, prop, bind, ret, JS.coord.
  cbn [List.length Nat.eqb negb nth_error app filter].
  split_fingers; cbn; eexists; (split; [reflexivity|]); 
    try (left; reflexivity); right; eexists; (split; [reflexivity|]); cbn; tauto.
Qed.

Lemma classifyGesture_total (M : JS.MathLib) (landmarks : list (list float)) :
  exists reads r,
    classifyGesture M landmarks = (reads, Normal r) /\
    (r = None \/
     exists g, r = Some g /\ In (gesture g, confidence g) rule_table).
Proof.
  destruct (Nat.eq_dec (List.length landmarks) 21) as [Hlen | Hlen].
  - destruct (classifyGesture_full M landmarks Hlen) as (r & Hr & Hin).
    exists reads21, r. split; assumption.
  - exists [], None. split.
    + apply classifyGesture_short; assumption.
    + left; reflexivity.
Qed.

(** Every read of [landmarks] is inside the array, and nothing is thrown. *)
Lemma classifyGesture_reads_in_bounds
    (M : JS.MathLib) (landmarks : list (list float)) :
  Forall (fun i => i < List.length landmarks) (fst (classifyGesture M landmarks))
  /\ (forall e, snd (classifyGesture M landmarks) <> Throw e).
Proof.
  destruct (Nat.eq_dec (List.length landmarks) 21) as [Hlen | Hlen].
  - destruct (classifyGesture_full M landmarks Hlen) as (r & Hr & _).
    rewrite Hr, Hlen. cbn [fst snd]. split.
    + unfold reads21. repeat constructor; lia.
    + discriminate.
  - rewrite (classifyGesture_short M landmarks Hlen). cbn [fst snd]. split.
    + constructor.
    + discriminate.
Qed.

(** C1: on every list of landmarks [classifyGesture] returns normally, and
    what it returns is either [null] or a result whose gesture is one of the
    nine labels "Yes", "No", "Hello", "1", "2", "3", "4", "I Love You",
    "Thank You". *)
Theorem classifyGesture_label_in_vocabulary
    (M : JS.MathLib) (landmarks : list (list float)) :
  exists reads r,
    classifyGesture M landmarks = (reads, Normal r) /\
    (r = None \/ exists g, r = Some g /\ In (gesture g) labels).
Proof.
  destruct (classifyGesture_total M landmarks) as (reads & r & Hr & Hcases).
  exists reads, r. split; [assumption|].
  destruct Hcases as [-> | (g & -> & Hin)]; [left; reflexivity|].
  right. exists g. split; [reflexivity|].
  apply (in_map fst) in Hin. cbn in Hin. cbn. tauto.
Qed.

(** C2: when the list does not hold exactly 21 landmarks, [classifyGesture]
    returns [null] having read no element of the list at all, so no index
    outside the list is accessed. *)
Theorem classifyGesture_wrong_length
    (M : JS.MathLib) (landmarks : list (list float)) :
  List.length landmarks <> 21 ->
  classifyGesture M landmarks = ([], Normal None).
Proof. apply classifyGesture_short. Qed.

Lemma classifyGesture_wrong_length_witness :
  List.length (@nil (list float)) <> 21 /\
  classifyGesture JS.ieeeMath [] = ([], Normal None).
Proof.
  split.
  - cbn. discriminate.
  - apply (classifyGesture_wrong_length JS.ieeeMath []). cbn. discriminate.
Defined.

(** C3: on 21 landmarks with all five fingers extended (thumb tip x below
    landmark 3 x, and index, middle, ring and pinky tips each with a smaller
    y than their knuckle) the answer is "Hello" with confidence 0.88. *)
Theorem classifyGesture_open_hand_is_hello
    (M : JS.MathLib) (landmarks : list (list float)) :
  List.length landmarks = 21 ->
  PrimFloat.ltb (xOf (landmark landmarks 4)) (xOf (landmark landmarks 3)) = true ->
  PrimFloat.ltb (yOf (landmark landmarks 8)) (yOf (landmark landmarks 5)) = true ->
  PrimFloat.ltb (yOf (landmark landmarks 12)) (yOf (landmark landmarks 9)) = true ->
  PrimFloat.ltb (yOf (landmark landmarks 16)) (yOf (landmark landmarks 13)) = true ->
  PrimFloat.ltb (yOf (landmark landmarks 20)) (yOf (landmark landmarks 17)) = true ->
  classifyGesture M landmarks =
    (reads21, Normal (Some {| gesture := "Hello"; confidence := 0.88 |})).
Proof.
  intros Hlen Hthumb Hindex Hmiddle Hring Hpinky.
  explode_landmarks landmarks.
  unfold landmark, xOf, yOf in *. cbn [nth] in *.
  unfold classifyGesture, at_index, prop, bind, ret.
  cbn [List.length Nat.eqb negb nth_error app].
  rewrite Hthumb, Hindex, Hmiddle, Hring, Hpinky. reflexivity.
Qed.

Lemma classifyGesture_open_hand_is_hello_witness :
  classifyGesture JS.ieeeMath openHand =
    (reads21, Normal (Some {| gesture := "Hello"; confidence := 0.88 |})).
Proof.
  apply (classifyGesture_open_hand_is_hello JS.ieeeMath openHand);
    vm_compute; reflexivity.
Defined.

(** C8: whenever [classifyGesture] returns a match, its confidence is one of
    0.80, 0.82, 0.85, 0.88, and so lies strictly between 0 and 1. *)
Theorem classifyGesture_confidence_values
    (M : JS.MathLib) (landmarks : list (list float))
    (reads : list nat) (g : GestureResult) :
  classifyGesture M landmarks = (reads, Normal (Some g)) ->
  In (confidence g) [0.80; 0.82; 0.85; 0.88]%float /\
  PrimFloat.ltb 0 (confidence g) = true /\
  PrimFloat.ltb (confidence g) 1 = true.
Proof.
  intros Hrun.
  destruct (classifyGesture_total M landmarks) as (reads' & r & Hr & Hcases).
  rewrite Hrun in Hr. injection Hr as _ <-.
  destruct Hcases as [Hnone | (g' & Hsome & Hin)]; [discriminate|].
  injection Hsome as <-.
  apply (in_map snd) in Hin. cbn [map snd rule_table] in Hin.
  cbn [In] in Hin.
  repeat (destruct Hin as [<- | Hin];
          [ split; [cbn; tauto | split; vm_compute; reflexivity] | ]).
  contradiction.
Qed.

Lemma classifyGesture_confidence_values_witness :
  In (confidence {| gesture := "No"; confidence := 0.80 |})
     [0.80; 0.82; 0.85; 0.88]%float /\
  PrimFloat.ltb 0 (confidence {| gesture := "No"; confidence := 0.80 |}) = true /\
  PrimFloat.ltb (confidence {| gesture := "No"; confidence := 0.80 |}) 1 = true.
Proof.
  apply (classifyGesture_confidence_values JS.ieeeMath fist reads21).
  vm_compute. reflexivity.
Defined.

(** Each of the nine labels is the answer on some hand. *)
Lemma every_label_attained :
  Forall (fun g =>
            exists landmarks r,
              snd (classifyGesture JS.ieeeMath landmarks) = Normal (Some r) /\
              gesture r = g)
         labels.
Proof.
  unfold labels. repeat constructor.
  - exists (pose thumbOut tipDown tipDown tipDown tipDown). eexists.
    vm_compute. split; reflexivity.
  - exists (pose thumbIn tipDown tipDown tipDown tipDown). eexists.
    vm_compute. split; reflexivity.
  - exists (pose thumbOut tipUp tipUp tipUp tipUp). eexists.
    vm_compute. split; reflexivity.
  - exists (pose thumbIn tipUp tipDown tipDown tipDown). eexists.
    vm_compute. split; reflexivity.
  - exists (pose thumbIn tipUp tipUp tipDown tipDown). eexists.
    vm_compute. split; reflexivity.
  - exists (pose thumbIn tipUp tipUp tipUp tipDown). eexists.
    vm_compute. split; reflexivity.
  - exists (pose thumbIn tipUp tipUp tipUp tipUp). eexists.
    vm_compute. split; reflexivity.
  - exists (pose thumbOut tipUp tipDown tipDown tipUp). eexists.
    vm_compute. split; reflexivity.
  - exists (pose tipDown tipDown tipUp tipUp tipUp). eexists.
    vm_compute. split; reflexivity.
Qed.

(** ** Clearing the text *)

(** C5: after [clearText] the accumulated text is the empty string and
    [onDetection], when supplied, has been called once more, with the empty
    string, whatever the text was before. *)
Theorem clearText_empties_text (p : Props) (st : State) :
  snd (clearText p st) = Normal tt /\
  detectedText (exec (clearText p) st) = "" /\
  onDetectionCalls (exec (clearText p) st) =
    onDetectionCalls st ++ (if onDetection p then [""] else []).
Proof.
  unfold clearText, callOnDetection. eff. cbn.
  destruct (onDetection p); cbn.
  - repeat split; reflexivity.
  - rewrite app_nil_r. repeat split; reflexivity.
Qed.

Lemma clearText_text (p : Props) (st : State) :
  detectedText (exec (clearText p) st) = "".
Proof.
  unfold clearText, callOnDetection. eff. cbn.
  destruct (onDetection p); reflexivity.
Qed.

(** ** The stability gate *)

Lemma processGesture_run (p : Props) (answer : completion (option string))
    (g : string) (conf : float) (st : State) :
  Local.processGesture p answer g conf st =
    (if publishes g st then
       setGestureCountRef 0
         (Local.addIfDifferent p (displayLabel p answer g)
            (translationLogs p answer g
               (setConfidence conf (setCurrentGesture g (counted g st)))))
     else counted g st,
     Normal tt).
Proof.
  unfold Local.processGesture, publishes, counted, countedAs, displayLabel,
    translationLogs, invokeTranslate.
  eff. cbn.
  destruct (String.eqb g (lastGestureRef st)) eqn:Hsame; cbn.
  - apply String.eqb_eq in Hsame. subst g.
    destruct st as [a l e t c sc d h lg n oc tc co]. cbn.
    destruct n as [| [| n]]; cbn; try reflexivity.
    destruct (String.eqb (language p) "en"); cbn; [reflexivity|].
    destruct answer; reflexivity.
  - destruct (String.eqb (language p) "en"); cbn; reflexivity.
Qed.

Lemma addIfDifferent_refs (p : Props) (d : string) (st : State) :
  lastGestureRef (Local.addIfDifferent p d st) = lastGestureRef st /\
  gestureCountRef (Local.addIfDifferent p d st) = gestureCountRef st /\
  currentGesture (Local.addIfDifferent p d st) = currentGesture st /\
  shownConfidence (Local.addIfDifferent p d st) = shownConfidence st /\
  translateCalls (Local.addIfDifferent p d st) = translateCalls st.
Proof.
  unfold Local.addIfDifferent, callOnDetection.
  destruct (JS.last_elem _) as [w|]; [destruct (String.eqb w d)|];
    cbn; destruct (onDetection p); cbn; repeat split; reflexivity.
Qed.

Lemma addIfDifferent_text (p : Props) (d : string) (st : State) :
  detectedText (Local.addIfDifferent p d st) = distinctAppend (detectedText st) d.
Proof.
  unfold Local.addIfDifferent, distinctAppend, words, callOnDetection.
  destruct (JS.last_elem _) as [w|]; [destruct (String.eqb w d)|];
    cbn; destruct (onDetection p); reflexivity.
Qed.

Lemma onResults_run (p : Props) (M : JS.MathLib)
    (hands : list (list Landmark)) (due : bool)
    (answer : completion (option string)) (st : State) :
  Local.onResults p M hands due answer st =
    (match hands with
     | [] => setHandDetected false st
     | landmarks :: _ =>
         if due then
           setIsDetecting false
             (match snd (classifyGesture M (map Local.toArray landmarks)) with
              | Normal (Some r) =>
                  exec (Local.processGesture p answer (gesture r) (confidence r))
                    (setIsDetecting true (setHandDetected true st))
              | _ => setIsDetecting true (setHandDetected true st)
              end)
         else setHandDetected true st
     end, Normal tt).
Proof.
  unfold Local.onResults. destruct hands as [| landmarks others].
  - reflexivity.
  - destruct due; [| reflexivity].
    destruct (classifyGesture_total M (map Local.toArray landmarks))
      as (reads & r & Hr & _).
    eff. rewrite Hr. cbn [snd].
    destruct r as [r|]; [| reflexivity].
    rewrite processGesture_run. reflexivity.
Qed.


(** How one event moves the text. *)
Lemma step_text (p : Props) (M : JS.MathLib) (st : State) (e : Local.Event) :
  detectedText (Local.step p M st e) =
  match e with
  | Local.StopDetection => detectedText st
  | Local.ClearText => EmptyString
  | Local.Results _ _ answer =>
      match processed M e with
      | Some g =>
          if publishes g st
          then distinctAppend (detectedText st) (displayLabel p answer g)
          else detectedText st
      | None => detectedText st
      end
  end.
Proof.
  destruct e as [hands due answer | |]; cbn [Local.step].
  - unfold exec. rewrite onResults_run. cbn [fst processed].
    destruct hands as [| landmarks others]; [reflexivity|].
    destruct due; [| reflexivity].
    destruct (snd (classifyGesture M (map Local.toArray landmarks)))
      as [[r|] | err]; try reflexivity.
    unfold exec. rewrite processGesture_run. cbn [fst].
    change (publishes (gesture r) (setIsDetecting true (setHandDetected true st)))
      with (publishes (gesture r) st).
    destruct (publishes (gesture r) st); [| reflexivity].
    cbn. rewrite addIfDifferent_text. unfold translationLogs.
    destruct (String.eqb (language p) "en"); [reflexivity|].
    destruct answer; reflexivity.
  - apply (clearText_text p st).
  - reflexivity.
Qed.

Lemma run_snoc (p : Props) (M : JS.MathLib) (events : list Local.Event)
    (e : Local.Event) :
  Local.run p M (events ++ [e]) = Local.step p M (Local.run p M events) e.
Proof. unfold Local.run. rewrite fold_left_app. reflexivity. Qed.




(** ** Translation *)

Lemma processLandmarks_reported (p : Props) (d : Remote.DetectData)
    (answer : completion (option string)) (landmarks : list Landmark)
    (st : State) :
  landmarks <> [] ->
  Remote.detected d = true ->
  JS.truthy (Remote.gesture d) = true ->
  let st' :=
    exec (Remote.processLandmarks p (reporting d) answer landmarks) st in
  translateCalls st' =
    translateCalls st ++
    (if String.eqb (language p) "en" then []
     else [(Remote.gesture d, language p)]) /\
  detectedText st' =
    if String.eqb (language p) "en"
    then appendText (detectedText st) (Remote.gesture d)
    else match answer with
         | Normal t =>
             appendText (detectedText st) (translatedOr (Remote.gesture d) t)
         | Throw _ => detectedText st
         end.
Proof.
  intros Hhand Hdet Hg st'. subst st'.
  destruct landmarks as [| lm rest]; [contradiction|].
  unfold Remote.processLandmarks, reporting, invokeTranslate, Remote.addText,
    callOnDetection.
  eff. cbn. rewrite Hdet, Hg. cbn.
  destruct (String.eqb (language p) "en"); cbn.
  - rewrite app_nil_r. destruct (onDetection p); split; reflexivity.
  - destruct answer as [t | err]; cbn.
    + destruct (onDetection p); split; reflexivity.
    + split; reflexivity.
Qed.

Lemma translatedOr_untranslated (g : string) (t : option string) :
  resolved_untranslated (Normal t) = true -> translatedOr g t = g.
Proof.
  unfold resolved_untranslated, translatedOr.
  destruct t as [t|]; [| reflexivity].
  destruct (JS.truthy t); [discriminate | reflexivity].
Qed.

Lemma displayLabel_untranslated (p : Props)
    (answer : completion (option string)) (g : string) :
  (String.eqb (language p) "en" || untranslated answer) = true ->
  displayLabel p answer g = g.
Proof.
  unfold displayLabel, untranslated, translatedOr.
  destruct (String.eqb (language p) "en"); [reflexivity|]. cbn.
  destruct answer as [[t|] | err]; try reflexivity.
  destruct (JS.truthy t); [discriminate | reflexivity].
Qed.

Lemma processGesture_calls (p : Props) (answer : completion (option string))
    (g : string) (conf : float) (st : State) :
  translateCalls (exec (Local.processGesture p answer g conf) st) =
    translateCalls st ++
    (if publishes g st && negb (String.eqb (language p) "en")
     then [(g, language p)] else []).
Proof.
  unfold exec. rewrite processGesture_run. cbn [fst].
  destruct (publishes g st); cbn [andb].
  - destruct (addIfDifferent_refs p (displayLabel p answer g)
      (translationLogs p answer g
         (setConfidence conf (setCurrentGesture g (counted g st)))))
      as (_ & _ & _ & _ & Hcalls).
    cbn. rewrite Hcalls. unfold translationLogs.
    destruct (String.eqb (language p) "en"); cbn.
    + rewrite app_nil_r. reflexivity.
    + destruct answer; reflexivity.
  - cbn. rewrite app_nil_r. reflexivity.
Qed.

Lemma processGesture_text (p : Props) (answer : completion (option string))
    (g : string) (conf : float) (st : State) :
  detectedText (exec (Local.processGesture p answer g conf) st) =
    if publishes g st
    then distinctAppend (detectedText st) (displayLabel p answer g)
    else detectedText st.
Proof.
  unfold exec. rewrite processGesture_run. cbn [fst].
  destruct (publishes g st); [| reflexivity].
  cbn. rewrite addIfDifferent_text. unfold translationLogs.
  destruct (String.eqb (language p) "en"); [reflexivity|].
  destruct answer; reflexivity.
Qed.

(** C7, as the code has it: a call of [processGesture] sends one request to
    the translation function when the gesture gets past the stability gate
    and the language is not 'en', and none otherwise; when the gesture is
    published and the language is 'en', or the call failed or gave no
    translated text, the label offered to the text is the English one, which
    is appended unless it equals the last word of the text.  In the earlier
    revision a reported gesture sends one request when the language is not
    'en', and the English label is appended when the language is 'en' or the
    call resolved without a translated text. *)
Theorem translation_only_when_not_english (p : Props) :
  (forall answer g conf st,
     let st' := exec (Local.processGesture p answer g conf) st in
     translateCalls st' =
       translateCalls st ++
       (if publishes g st && negb (String.eqb (language p) "en")
        then [(g, language p)] else []) /\
     (publishes g st = true ->
      (String.eqb (language p) "en" || untranslated answer) = true ->
      detectedText st' = distinctAppend (detectedText st) g)) /\
  (forall d answer landmarks st,
     landmarks <> [] ->
     Remote.detected d = true ->
     JS.truthy (Remote.gesture d) = true ->
     let st' :=
       exec (Remote.processLandmarks p (reporting d) answer landmarks) st in
     translateCalls st' =
       translateCalls st ++
       (if negb (String.eqb (language p) "en")
        then [(Remote.gesture d, language p)] else []) /\
     ((String.eqb (language p) "en" || resolved_untranslated answer) = true ->
      detectedText st' = appendText (detectedText st) (Remote.gesture d))).
Proof.
  split.
  - intros answer g conf st st'. subst st'. split.
    + apply processGesture_calls.
    + intros Hpub Hkeep. rewrite processGesture_text, Hpub.
      rewrite (displayLabel_untranslated p answer g Hkeep). reflexivity.
  - intros d answer landmarks st Hhand Hdet Hg st'. subst st'.
    destruct (processLandmarks_reported p d answer landmarks st Hhand Hdet Hg)
      as [Hcalls Htext].
    split.
    + rewrite Hcalls. destruct (String.eqb (language p) "en"); reflexivity.
    + intros Hkeep. rewrite Htext.
      destruct (String.eqb (language p) "en"); [reflexivity|].
      cbn in Hkeep. destruct answer as [t | err]; [| discriminate].
      rewrite (translatedOr_untranslated _ t Hkeep). reflexivity.
Qed.

Lemma translation_only_when_not_english_witness :
  let st := Local.run esProps JS.ieeeMath
              [fistFrame (Normal None); fistFrame (Normal None)] in
  let st' :=
    exec (Local.processGesture esProps (Throw OtherValue) "No" 0.80) st in
  translateCalls st' = [("No", "es")] /\ detectedText st' = "No".
Proof.
  split.
  - apply (proj1 (proj1 (translation_only_when_not_english esProps)
                    (Throw OtherValue) "No" 0.80%float
                    (Local.run esProps JS.ieeeMath
                       [fistFrame (Normal None); fistFrame (Normal None)]))).
  - apply (proj2 (proj1 (translation_only_when_not_english esProps)
                    (Throw OtherValue) "No" 0.80%float
                    (Local.run esProps JS.ieeeMath
                       [fistFrame (Normal None); fistFrame (Normal None)])));
      vm_compute; reflexivity.
Defined.

(** C7 fails as stated.  With the language 'en' and the text "No" on
    display, a fist held for three more detections is published again: the
    translation function is not called, and yet the English label is not
    appended.  And with the language 'es' the first detection of a gesture
    sends no request. *)
Lemma english_label_not_always_appended :
  let st := Local.run enProps JS.ieeeMath
              (repeat (fistFrame (Normal None)) 5) in
  let st' := Local.step enProps JS.ieeeMath st (fistFrame (Normal None)) in
  processed JS.ieeeMath (fistFrame (Normal None)) = Some "No" /\
  publishes "No" st = true /\
  translateCalls st' = [] /\
  detectedText st = "No" /\
  detectedText st' = "No" /\
  detectedText st' <> appendText (detectedText st) "No" /\
  translateCalls (Local.run esProps JS.ieeeMath [fistFrame (Normal None)]) = [].
Proof. vm_compute. repeat split; try reflexivity. discriminate. Qed.

(** ** Strings, spaces and words *)

Lemma append_assoc (a b c : string) :
  ((a ++ b) ++ c = a ++ (b ++ c))%string.
Proof. induction a as [| x a IH]; cbn; [reflexivity | rewrite IH; reflexivity]. Qed.

Lemma split_not_nil (s : string) : JS.split s <> [].
Proof.
  induction s as [| c s IH]; cbn.
  - discriminate.
  - destruct (Ascii.eqb c " "); [discriminate|].
    destruct (JS.split s); discriminate.
Qed.

Lemma split_append_space (a b : string) :
  JS.split (a ++ " " ++ b) = JS.split a ++ JS.split b.
Proof.
  induction a as [| c a IH]; cbn.
  - reflexivity.
  - change (a ++ String " " b)%string with (a ++ " " ++ b)%string.
    rewrite IH. destruct (Ascii.eqb c " "); [reflexivity|].
    pose proof (split_not_nil a) as Hne.
    destruct (JS.split a) as [| w ws]; [contradiction | reflexivity].
Qed.

Lemma words_append_space (a b : string) :
  words (a ++ " " ++ b) = words a ++ words b.
Proof. unfold words. rewrite split_append_space. apply filter_app. Qed.

Lemma truthy_append (a b : string) :
  JS.truthy a = true -> JS.truthy (a ++ b) = true.
Proof. destruct a; [discriminate | reflexivity]. Qed.

Lemma leading_space_append (a b : string) :
  JS.truthy a = true -> leading_space (a ++ b) = leading_space a.
Proof. destruct a; [discriminate | reflexivity]. Qed.

Lemma trailing_space_append (a b : string) :
  JS.truthy b = true -> trailing_space (a ++ b) = trailing_space b.
Proof.
  intros Hb. induction a as [| c a IH]; [reflexivity|].
  cbn [append trailing_space]. rewrite IH.
  destruct (a ++ b)%string eqn:Hab; [| reflexivity].
  destruct a; cbn in Hab; [subst b|]; discriminate.
Qed.

Lemma doubled_space_append_space (a b : string) :
  doubled_space (a ++ " " ++ b) =
    doubled_space a || trailing_space a || leading_space b || doubled_space b.
Proof.
  induction a as [| c a IH].
  - cbn. destruct b as [| d b]; cbn; [reflexivity|].
    destruct (is_space d); reflexivity.
  - cbn [append]. change (a ++ String " " b)%string with (a ++ " " ++ b)%string.
    cbn [doubled_space trailing_space]. rewrite IH.
    destruct a as [| c' a]; cbn.
    + destruct (is_space c); cbn; [| reflexivity].
      destruct (leading_space b); reflexivity.
    + destruct (is_space c && is_space c'); reflexivity.
Qed.

Lemma clean_append_space (a b : string) :
  clean a = true -> clean b = true -> clean (a ++ " " ++ b) = true.
Proof.
  unfold clean, tidy. intros Ha Hb.
  apply andb_true_iff in Ha as [Ha Hta]. apply andb_true_iff in Hb as [Hb Htb].
  apply andb_true_iff in Hta as [Hta Hda]. apply andb_true_iff in Hta as [Hla Hta].
  apply andb_true_iff in Htb as [Htb Hdb]. apply andb_true_iff in Htb as [Hlb Htb].
  apply negb_true_iff in Hla, Hta, Hda, Hlb, Htb, Hdb.
  rewrite (truthy_append a _ Ha), (leading_space_append a _ Ha), Hla.
  rewrite doubled_space_append_space, Hda, Hta, Hlb, Hdb.
  rewrite (trailing_space_append a (" " ++ b)) by reflexivity.
  replace (trailing_space (" " ++ b)) with false; [reflexivity|].
  cbn. destruct b; [discriminate|]. symmetry. exact Htb.
Qed.

(** A text made of clean labels with single spaces between them. *)
Lemma appendText_clean (prev d : string) :
  prev = "" \/ clean prev = true -> clean d = true ->
  clean (appendText prev d) = true.
Proof.
  intros [-> | Hprev] Hd; unfold appendText.
  - exact Hd.
  - destruct (JS.truthy prev); [| exact Hd].
    apply clean_append_space; assumption.
Qed.

Lemma concat_clean (ls : list string) :
  ls <> [] -> Forall (fun l => clean l = true) ls ->
  clean (String.concat " " ls) = true.
Proof.
  induction ls as [| x xs IH]; intros Hne Hall; [contradiction|].
  inversion Hall as [| ? ? Hx Hxs]; subst.
  destruct xs as [| y ys]; [exact Hx|].
  change (String.concat " " (x :: y :: ys))
    with (x ++ " " ++ String.concat " " (y :: ys))%string.
  apply clean_append_space; [exact Hx|].
  apply IH; [discriminate | exact Hxs].
Qed.

Lemma concat_snoc (ls : list string) (d : string) :
  Forall (fun l => clean l = true) ls ->
  String.concat " " (ls ++ [d]) = appendText (String.concat " " ls) d.
Proof.
  intros Hall. induction ls as [| x xs IH]; [reflexivity|].
  inversion Hall as [| ? ? Hx Hxs]; subst.
  assert (Hcat : clean (String.concat " " (x :: xs)) = true)
    by (apply concat_clean; [discriminate | exact Hall]).
  unfold appendText. apply andb_true_iff in Hcat as [Hcat _]. rewrite Hcat.
  destruct xs as [| y ys]; [reflexivity|].
  change (String.concat " " ((x :: y :: ys) ++ [d]))
    with (x ++ " " ++ String.concat " " ((y :: ys) ++ [d]))%string.
  rewrite (IH Hxs). unfold appendText.
  assert (Hcat' : clean (String.concat " " (y :: ys)) = true)
    by (apply concat_clean; [discriminate | exact Hxs]).
  apply andb_true_iff in Hcat' as [Hcat' _]. rewrite Hcat'.
  change (String.concat " " (x :: y :: ys))
    with (x ++ " " ++ String.concat " " (y :: ys))%string.
  rewrite !append_assoc. reflexivity.
Qed.

(** ** The accumulated text *)

Lemma joined_empty : Joined "".
Proof. exists []. split; [constructor | reflexivity]. Qed.

Lemma joined_append (text d : string) :
  Joined text -> clean d = true -> Joined (appendText text d).
Proof.
  intros (ls & Hall & ->) Hd. exists (ls ++ [d]). split.
  - apply Forall_app. split; [exact Hall | repeat constructor; exact Hd].
  - symmetry. apply concat_snoc. exact Hall.
Qed.

Lemma joined_distinctAppend (text d : string) :
  Joined text -> clean d = true -> Joined (distinctAppend text d).
Proof.
  intros Hj Hd. unfold distinctAppend.
  destruct (JS.last_elem (words text)) as [w|].
  - destruct (String.eqb w d); [exact Hj | apply joined_append; assumption].
  - apply joined_append; assumption.
Qed.

Lemma joined_tidy (text : string) : Joined text -> tidy text = true.
Proof.
  intros (ls & Hall & ->). destruct ls as [| x xs]; [reflexivity|].
  assert (Hc : clean (String.concat " " (x :: xs)) = true)
    by (apply concat_clean; [discriminate | exact Hall]).
  apply andb_true_iff in Hc as [_ Hc]. exact Hc.
Qed.

Lemma processed_in_labels (M : JS.MathLib) (e : Local.Event) (g : string) :
  processed M e = Some g -> In g labels.
Proof.
  destruct e as [[| landmarks others] [|] answer | |]; cbn; try discriminate.
  destruct (classifyGesture_total M (map Local.toArray landmarks))
    as (reads & r & Hr & Hcases).
  rewrite Hr. cbn.
  destruct Hcases as [-> | (res & -> & Hin)]; [discriminate|].
  intros [= <-]. apply (in_map fst) in Hin. cbn in Hin. cbn. tauto.
Qed.

Lemma labels_clean (g : string) : In g labels -> clean g = true.
Proof.
  cbn. intros H.
  repeat (destruct H as [<- | H]; [reflexivity|]). contradiction.
Qed.

Lemma displayLabel_clean (p : Props) (answer : completion (option string))
    (g : string) :
  clean g = true ->
  (String.eqb (language p) "en" || clean_answer answer) = true ->
  clean (displayLabel p answer g) = true.
Proof.
  intros Hg Hc. unfold displayLabel, translatedOr.
  destruct (String.eqb (language p) "en"); [exact Hg|]. cbn in Hc.
  destruct answer as [[t|] | err]; try exact Hg.
  cbn in Hc. destruct (JS.truthy t); [exact Hc | exact Hg].
Qed.

Lemma local_run_joined (p : Props) (M : JS.MathLib)
    (events : list Local.Event) :
  (String.eqb (language p) "en" || forallb clean_event events) = true ->
  Joined (detectedText (Local.run p M events)).
Proof.
  induction events as [| e events IH] using rev_ind; intros Hc.
  - apply joined_empty.
  - rewrite run_snoc, step_text.
    assert (Hprev : Joined (detectedText (Local.run p M events))).
    { apply IH. destruct (String.eqb (language p) "en"); [reflexivity|].
      cbn in *. rewrite forallb_app in Hc.
      apply andb_true_iff in Hc as [Hc _]. exact Hc. }
    destruct e as [hands due answer | |].
    + destruct (processed M (Local.Results hands due answer)) as [g|] eqn:Hg;
        [| exact Hprev].
      destruct (publishes g (Local.run p M events)); [| exact Hprev].
      apply joined_distinctAppend; [exact Hprev|].
      apply displayLabel_clean.
      * apply labels_clean. exact (processed_in_labels M _ g Hg).
      * destruct (String.eqb (language p) "en"); [reflexivity|].
        cbn in *. rewrite forallb_app in Hc.
        apply andb_true_iff in Hc as [_ Hc]. cbn in Hc.
        rewrite andb_true_r in Hc. exact Hc.
    + apply joined_empty.
    + exact Hprev.
Qed.

Lemma processLandmarks_text (p : Props) (reply : completion Remote.DetectReply)
    (answer : completion (option string)) (landmarks : list Landmark)
    (st : State) :
  detectedText (exec (Remote.processLandmarks p reply answer landmarks) st) =
    match landmarks, appended p reply answer with
    | _ :: _, Some d => appendText (detectedText st) d
    | _, _ => detectedText st
    end.
Proof.
  destruct landmarks as [| lm rest]; [reflexivity|].
  unfold Remote.processLandmarks, appended, invokeTranslate, Remote.addText,
    callOnDetection.
  eff. cbn.
  destruct reply as [[[d|] [|]] | err]; cbn; try reflexivity.
  destruct (Remote.detected d && JS.truthy (Remote.gesture d)); cbn;
    [| reflexivity].
  destruct (String.eqb (language p) "en"); cbn.
  - destruct (onDetection p); reflexivity.
  - destruct answer as [t | err]; cbn; [| reflexivity].
    destruct (onDetection p); reflexivity.
Qed.

Lemma remote_step_text (p : Props) (st : State) (e : Remote.Event) :
  detectedText (Remote.step p st e) =
    match e with
    | Remote.Landmarks (_ :: _) reply answer =>
        match appended p reply answer with
        | Some d => appendText (detectedText st) d
        | None => detectedText st
        end
    | Remote.ClearText => EmptyString
    | _ => detectedText st
    end.
Proof.
  destruct e as [landmarks reply answer | |]; cbn [Remote.step].
  - change (exec (fireAndForget (Remote.processLandmarks p reply answer landmarks)) st)
      with (exec (Remote.processLandmarks p reply answer landmarks) st).
    rewrite processLandmarks_text.
    destruct landmarks; [reflexivity|].
    destruct (appended p reply answer); reflexivity.
  - apply clearText_text.
  - reflexivity.
Qed.

Lemma appended_clean (p : Props) (landmarks : list Landmark)
    (reply : completion Remote.DetectReply)
    (answer : completion (option string)) (d : string) :
  clean_remote_event (Remote.Landmarks landmarks reply answer) = true ->
  appended p reply answer = Some d -> clean d = true.
Proof.
  unfold clean_remote_event, appended.
  destruct reply as [[[dd|] [|]] | err]; try discriminate.
  cbn. intros Hc.
  destruct (Remote.detected dd); cbn; [| discriminate].
  destruct (JS.truthy (Remote.gesture dd)); cbn in *; [| discriminate].
  apply andb_true_iff in Hc as [Hg Ha].
  destruct (String.eqb (language p) "en").
  - intros [= <-]. exact Hg.
  - destruct answer as [[t|] | err]; try discriminate.
    + cbn in *. destruct (JS.truthy t); intros [= <-]; assumption.
    + intros [= <-]. exact Hg.
Qed.

Lemma remote_run_snoc (p : Props) (events : list Remote.Event)
    (e : Remote.Event) :
  Remote.run p (events ++ [e]) = Remote.step p (Remote.run p events) e.
Proof. unfold Remote.run. rewrite fold_left_app. reflexivity. Qed.

Lemma remote_run_joined (p : Props) (events : list Remote.Event) :
  forallb clean_remote_event events = true ->
  Joined (detectedText (Remote.run p events)).
Proof.
  induction events as [| e events IH] using rev_ind; intros Hc.
  - apply joined_empty.
  - rewrite forallb_app in Hc. apply andb_true_iff in Hc as [Hc He].
    cbn in He. rewrite andb_true_r in He.
    rewrite remote_run_snoc, remote_step_text.
    specialize (IH Hc).
    destruct e as [[| lm rest] reply answer | |]; try exact IH.
    + destruct (appended p reply answer) as [d|] eqn:Hd; [| exact IH].
      apply joined_append; [exact IH|].
      exact (appended_clean p _ reply answer d He Hd).
    + apply joined_empty.
Qed.

Lemma tidy_spelled (text : string) :
  tidy text = true ->
  leading_space text = false /\ trailing_space text = false /\
  doubled_space text = false.
Proof.
  unfold tidy. intros H.
  apply andb_true_iff in H as [H Hd]. apply andb_true_iff in H as [Hl Ht].
  apply negb_true_iff in Hl, Ht, Hd. repeat split; assumption.
Qed.

(** C4, as the code has it: an append sets an empty text to the label and
    otherwise adds one space and the label; [processGesture] and
    [processLandmarks] leave the text as it was or append one display label
    to it; [clearText] resets it to the empty string; and, from the empty
    text, as long as every translated (or remotely detected) label that gets
    displayed is itself non-empty without leading, trailing or doubled
    spaces, the text is a space-joined sequence of such labels and has no
    leading, trailing or doubled space. *)
Theorem detectedText_space_joined (p : Props) (M : JS.MathLib) :
  (forall d, appendText "" d = d) /\
  (forall prev d,
     JS.truthy prev = true -> appendText prev d = (prev ++ " " ++ d)%string) /\
  (forall answer g conf st,
     let text' := detectedText (exec (Local.processGesture p answer g conf) st) in
     text' = detectedText st \/
     text' = appendText (detectedText st) (displayLabel p answer g)) /\
  (forall reply answer landmarks st,
     let text' :=
       detectedText (exec (Remote.processLandmarks p reply answer landmarks) st) in
     text' = detectedText st \/
     exists d, appended p reply answer = Some d /\
               text' = appendText (detectedText st) d) /\
  (forall st, detectedText (exec (clearText p) st) = "") /\
  (forall events,
     (String.eqb (language p) "en" || forallb clean_event events) = true ->
     let text := detectedText (Local.run p M events) in
     Joined text /\ leading_space text = false /\
     trailing_space text = false /\ doubled_space text = false) /\
  (forall events,
     forallb clean_remote_event events = true ->
     let text := detectedText (Remote.run p events) in
     Joined text /\ leading_space text = false /\
     trailing_space text = false /\ doubled_space text = false).
Proof.
  split; [reflexivity|].
  split; [intros prev d Hprev; unfold appendText; rewrite Hprev; reflexivity|].
  split.
  { intros answer g conf st text'. subst text'. rewrite processGesture_text.
    destruct (publishes g st); [| left; reflexivity].
    unfold distinctAppend.
    destruct (JS.last_elem (words (detectedText st))) as [w|];
      [destruct (String.eqb w (displayLabel p answer g))|]; auto. }
  split.
  { intros reply answer landmarks st text'. subst text'.
    rewrite processLandmarks_text.
    destruct landmarks as [| lm rest]; [left; reflexivity|].
    destruct (appended p reply answer) as [d|]; [| left; reflexivity].
    right. exists d. split; reflexivity. }
  split; [apply clearText_text|].
  split.
  - intros events Hc text. subst text.
    pose proof (local_run_joined p M events Hc) as Hj.
    split; [exact Hj | apply tidy_spelled, joined_tidy, Hj].
  - intros events Hc text. subst text.
    pose proof (remote_run_joined p events Hc) as Hj.
    split; [exact Hj | apply tidy_spelled, joined_tidy, Hj].
Qed.

Lemma detectedText_space_joined_witness :
  let events :=
    repeat (fistFrame (Normal (Some "no"))) 3 ++
    repeat (openHandFrame (Normal (Some "hola"))) 3 in
  let text := detectedText (Local.run esProps JS.ieeeMath events) in
  text = "no hola" /\
  Joined text /\ leading_space text = false /\
  trailing_space text = false /\ doubled_space text = false.
Proof.
  split.
  - vm_compute. reflexivity.
  - apply (proj1 (proj2 (proj2 (proj2 (proj2 (proj2
             (detectedText_space_joined esProps JS.ieeeMath)))))))
      with (events := repeat (fistFrame (Normal (Some "no"))) 3 ++
                      repeat (openHandFrame (Normal (Some "hola"))) 3).
    vm_compute. reflexivity.
Defined.

(** C4 fails as stated.  With the language 'es', a translation that comes
    back as "no " (with a space at its end) is displayed as it is: the text
    then ends in a space, and the next label is joined to it with two. *)
Lemma translated_label_brings_spaces :
  let first := repeat (fistFrame (Normal (Some "no "))) 3 in
  let next := repeat (openHandFrame (Normal (Some "hola"))) 3 in
  detectedText (Local.run esProps JS.ieeeMath first) = "no " /\
  trailing_space (detectedText (Local.run esProps JS.ieeeMath first)) = true /\
  detectedText (Local.run esProps JS.ieeeMath (first ++ next)) = "no  hola" /\
  doubled_space (detectedText (Local.run esProps JS.ieeeMath (first ++ next)))
    = true.
Proof. vm_compute. repeat split; reflexivity. Qed.

(** ** Repeated words *)

Lemma last_elem_app {A : Type} (a b : list A) :
  b <> [] -> JS.last_elem (a ++ b) = JS.last_elem b.
Proof.
  intros Hb. unfold JS.last_elem. rewrite rev_app_distr.
  destruct (rev b) as [| x xs] eqn:Hrev; [| reflexivity].
  apply (f_equal (@rev A)) in Hrev. rewrite rev_involutive in Hrev.
  contradiction.
Qed.

Lemma last_elem_cons {A : Type} (x y : A) (l : list A) :
  JS.last_elem (x :: y :: l) = JS.last_elem (y :: l).
Proof. apply (last_elem_app [x] (y :: l)). discriminate. Qed.

Lemma adjacent_equal_app (a b : list string) :
  adjacent_equal a = false ->
  adjacent_equal b = false ->
  (forall x y, JS.last_elem a = Some x -> hd_error b = Some y ->
               String.eqb x y = false) ->
  adjacent_equal (a ++ b) = false.
Proof.
  induction a as [| x a IH]; intros Ha Hb Hjoin; [exact Hb|].
  destruct a as [| x' a].
  - cbn. destruct b as [| y b]; [reflexivity|].
    rewrite (Hjoin x y eq_refl eq_refl). exact Hb.
  - cbn [app adjacent_equal] in *.
    apply orb_false_iff in Ha as [Hxx Ha]. rewrite Hxx. cbn [orb].
    apply IH; [exact Ha | exact Hb|].
    intros u v Hu Hv. apply Hjoin; [| exact Hv].
    rewrite last_elem_cons. exact Hu.
Qed.

Lemma label_settled (g : string) : In g labels -> settled g.
Proof.
  cbn. intros H.
  repeat (destruct H as [<- | H];
          [ split; [reflexivity | cbn; intros w [= <-]; tauto] | ]).
  contradiction.
Qed.

Lemma label_joins (g w : string) :
  In g labels -> In w last_words -> String.eqb w g = false ->
  forall y, hd_error (words g) = Some y -> String.eqb w y = false.
Proof.
  cbn. intros Hg Hw Hne y.
  repeat (destruct Hg as [<- | Hg];
          [ cbn; intros [= <-];
            repeat (destruct Hw as [<- | Hw]; [first [exact Hne | reflexivity] |]);
            contradiction | ]).
  contradiction.
Qed.

Lemma label_has_words (g : string) : In g labels -> words g <> [].
Proof.
  cbn. intros H.
  repeat (destruct H as [<- | H]; [cbn; discriminate|]). contradiction.
Qed.

Lemma appendText_settled (text g : string) :
  settled text -> In g labels ->
  (forall w, JS.last_elem (words text) = Some w -> String.eqb w g = false) ->
  settled (appendText text g).
Proof.
  intros [Hadj Hlast] Hg Hdiff. unfold appendText.
  destruct (JS.truthy text); [| apply label_settled; exact Hg].
  unfold settled. rewrite words_append_space. split.
  - apply adjacent_equal_app; [exact Hadj | apply label_settled; exact Hg |].
    intros x y Hx Hy.
    exact (label_joins g x Hg (Hlast x Hx) (Hdiff x Hx) y Hy).
  - intros u. rewrite (last_elem_app _ _ (label_has_words g Hg)).
    apply (label_settled g Hg).
Qed.

Lemma distinctAppend_settled (text g : string) :
  settled text -> In g labels -> settled (distinctAppend text g).
Proof.
  intros Hs Hg. unfold distinctAppend.
  destruct (JS.last_elem (words text)) as [w|] eqn:Hw.
  - destruct (String.eqb w g) eqn:Hwg; [exact Hs|].
    apply appendText_settled; [exact Hs | exact Hg|].
    intros x Hx. rewrite Hx in Hw. injection Hw as ->. exact Hwg.
  - apply appendText_settled; [exact Hs | exact Hg|].
    intros x Hx. rewrite Hx in Hw. discriminate.
Qed.

Lemma english_run_settled (p : Props) (M : JS.MathLib)
    (events : list Local.Event) :
  language p = "en" -> settled (detectedText (Local.run p M events)).
Proof.
  intros Hen.
  induction events as [| e events IH] using rev_ind.
  - split; [reflexivity | discriminate].
  - rewrite run_snoc, step_text.
    destruct e as [hands due answer | |]; [| | exact IH].
    + destruct (processed M (Local.Results hands due answer)) as [g|] eqn:Hg;
        [| exact IH].
      destruct (publishes g (Local.run p M events)); [| exact IH].
      unfold displayLabel. rewrite Hen. cbn [String.eqb Ascii.eqb Bool.eqb].
      apply distinctAppend_settled; [exact IH|].
      exact (processed_in_labels M _ g Hg).
    + split; [reflexivity | discriminate].
Qed.

(** C9, as the code has it: [processGesture] appends the display label only
    when it differs from the last word of the text and otherwise leaves the
    text as it is; and when the language is 'en', so that every display
    label is one of the nine English labels, the text never holds two equal
    words next to each other. *)
Theorem no_repeated_word_in_english (p : Props) (M : JS.MathLib) :
  (forall answer g conf st,
     let text := detectedText st in
     let text' := detectedText (exec (Local.processGesture p answer g conf) st) in
     let d := displayLabel p answer g in
     (JS.last_elem (words text) = Some d -> text' = text) /\
     (text' = text \/
      (JS.last_elem (words text) <> Some d /\ text' = appendText text d))) /\
  (forall events,
     language p = "en" ->
     adjacent_equal (words (detectedText (Local.run p M events))) = false).
Proof.
  split.
  - intros answer g conf st text text' d. subst text text' d.
    rewrite processGesture_text. unfold distinctAppend.
    destruct (publishes g st).
    + destruct (JS.last_elem (words (detectedText st))) as [w|].
      * destruct (String.eqb w (displayLabel p answer g)) eqn:Hw.
        -- split; [reflexivity | left; reflexivity].
        -- apply String.eqb_neq in Hw. split.
           ++ intros [= Heq]. contradiction.
           ++ right. split; [| reflexivity]. intros [= Heq]. contradiction.
      * split; [discriminate|]. right. split; [discriminate | reflexivity].
    + split; [reflexivity | left; reflexivity].
  - intros events Hen. apply (english_run_settled p M events Hen).
Qed.

Lemma no_repeated_word_in_english_witness :
  adjacent_equal
    (words (detectedText
       (Local.run enProps JS.ieeeMath
          (repeat (openHandFrame (Normal None)) 3 ++
           repeat (fistFrame (Normal None)) 6)))) = false.
Proof.
  apply (proj2 (no_repeated_word_in_english enProps JS.ieeeMath)).
  reflexivity.
Defined.

(** C9 fails as stated.  With the language 'es', a translation that comes
    back as "no no" is compared as a whole with the last word and appended:
    the text then holds the same word twice in a row. *)
Lemma translated_label_repeats_word :
  let text :=
    detectedText (Local.run esProps JS.ieeeMath
                    (repeat (fistFrame (Normal (Some "no no"))) 3)) in
  text = "no no" /\ words text = ["no"; "no"] /\
  adjacent_equal (words text) = true.
Proof. vm_compute. repeat split; reflexivity. Qed.

(** The comparison is with the last word, not with the last label: a label of
    several words never equals it, so holding such a gesture appends it
    again at every publication. *)
Lemma label_of_several_words_appended_again :
  detectedText (Local.run enProps JS.ieeeMath
                  (repeat (thankYouFrame (Normal None)) 6))
    = "Thank You Thank You".
Proof. vm_compute. reflexivity. Qed.

(** ** Starting detection *)

Lemma local_startDetection_returns (env : Local.StartEnv) (st : State) :
  snd (Local.startDetection env st) = Normal tt.
Proof.
  unfold Local.startDetection, Local.loadScript. eff. cbn.
  destruct (Local.getUserMedia env) as [[] | [name message |]]; cbn.
  - destruct (Local.elementsMounted env); cbn.
    + destruct (Local.videoReady env) as [[] | [name message |]]; cbn.
      * destruct (Local.scriptLoad env) as [| [|] |]; cbn; try reflexivity;
          destruct (Local.handsSetup env) as [[] | err]; reflexivity.
      * destruct (String.eqb name "NotAllowedError"); [reflexivity|].
        destruct (String.eqb name "NotFoundError"); reflexivity.
      * reflexivity.
    + reflexivity.
  - destruct (String.eqb name "NotAllowedError"); [reflexivity|].
    destruct (String.eqb name "NotFoundError"); reflexivity.
  - reflexivity.
Qed.

Lemma initializeMediaPipe_outcome (env : Remote.StartEnv) (st : State) :
  Remote.initializeMediaPipe env st =
    if trackerReady env then (st, Normal tt)
    else (logConsole "Failed to initialize MediaPipe:" st,
          Throw (ErrorObject "Error"
                   "Failed to load hand tracking. Please try again.")).
Proof.
  unfold Remote.initializeMediaPipe, Remote.loadMediaPipeScript, trackerReady.
  eff.
  destruct (Remote.scriptLoad env) as [| [|] |]; cbn; try reflexivity;
    destruct (Remote.handsSetup env) as [[] | err]; reflexivity.
Qed.

Lemma remote_startDetection_returns (env : Remote.StartEnv) (st : State) :
  snd (Remote.startDetection env st) = Normal tt.
Proof.
  unfold Remote.startDetection.
  unfold andThen at 1 2. unfold update at 1 2. unfold tryFinally, tryCatch.
  unfold andThen at 1. rewrite initializeMediaPipe_outcome.
  destruct (trackerReady env); eff; cbn; [| reflexivity].
  destruct (Remote.getUserMedia env) as [[] | [name message |]]; cbn.
  - destruct (Remote.elementsMounted env); reflexivity.
  - destruct (String.eqb name "NotAllowedError"); [reflexivity|].
    destruct (String.eqb name "NotFoundError"); reflexivity.
  - reflexivity.
Qed.

Lemma local_camera_error (env : Local.StartEnv) (st : State)
    (name message : string) :
  Local.getUserMedia env = Throw (ErrorObject name message) ->
  error (exec (Local.startDetection env) st) =
    Some (if String.eqb name "NotAllowedError" then
            "Camera access denied. Please allow camera access in your browser settings and refresh the page."
          else if String.eqb name "NotFoundError" then
            "No camera found. Please connect a camera and try again."
          else if JS.truthy message then message
          else "Failed to start camera. Please try again.").
Proof.
  intros Hcam. unfold Local.startDetection. eff. cbn. rewrite Hcam. cbn.
  destruct (String.eqb name "NotAllowedError"); [reflexivity|].
  destruct (String.eqb name "NotFoundError"); reflexivity.
Qed.

Lemma local_tracker_error (env : Local.StartEnv) (st : State) :
  Local.getUserMedia env = Normal tt ->
  Local.elementsMounted env = true ->
  Local.videoReady env = Normal tt ->
  Local.scriptLoad env = Local.LoadFailed ->
  error (exec (Local.startDetection env) st) = None /\
  isActive (exec (Local.startDetection env) st) = true /\
  console (exec (Local.startDetection env) st) =
    console st ++ ["MediaPipe not available, using camera only mode:"].
Proof.
  intros Hcam Hel Hvid Hload.
  unfold Local.startDetection, Local.loadScript. eff. cbn.
  rewrite Hcam, Hel. cbn. rewrite Hvid. cbn. rewrite Hload. cbn.
  repeat split; reflexivity.
Qed.

Lemma remote_tracker_error (env : Remote.StartEnv) (st : State) :
  trackerReady env = false ->
  error (exec (Remote.startDetection env) st) =
    Some "Failed to load hand tracking. Please try again.".
Proof.
  intros Hready. unfold exec, Remote.startDetection.
  unfold andThen at 1 2. unfold update at 1 2. unfold tryFinally, tryCatch.
  unfold andThen at 1. rewrite initializeMediaPipe_outcome, Hready.
  reflexivity.
Qed.

Lemma remote_camera_error (env : Remote.StartEnv) (st : State)
    (name message : string) :
  trackerReady env = true ->
  Remote.getUserMedia env = Throw (ErrorObject name message) ->
  error (exec (Remote.startDetection env) st) =
    Some (if String.eqb name "NotAllowedError" then
            "Camera access denied. Please allow camera access in your browser settings."
          else if String.eqb name "NotFoundError" then
            "No camera found. Please connect a camera and try again."
          else if JS.truthy message then message
          else "Failed to start detection. Please try again.").
Proof.
  intros Hready Hcam. unfold exec, Remote.startDetection.
  unfold andThen at 1 2. unfold update at 1 2. unfold tryFinally, tryCatch.
  unfold andThen at 1. rewrite initializeMediaPipe_outcome, Hready.
  eff. cbn. rewrite Hcam. cbn.
  destruct (String.eqb name "NotAllowedError"); [reflexivity|].
  destruct (String.eqb name "NotFoundError"); reflexivity.
Qed.

(** C6, as the code has it: in both revisions [startDetection] returns
    normally whatever the awaited steps throw.  A camera failure that is an
    [Error] is shown: [NotAllowedError] as the camera-access-denied message,
    [NotFoundError] as the no-camera-found message, any other one as its own
    message, or as a fixed fallback when it has none.  A failure to load or
    set up the hand tracker is shown as "Failed to load hand tracking.
    Please try again." in the earlier revision; in the later one a failed
    load is caught apart, written to the console and not shown: the error
    stays empty and the camera stays on. *)
Theorem startDetection_failures_caught :
  (forall env st, snd (Local.startDetection env st) = Normal tt) /\
  (forall env st, snd (Remote.startDetection env st) = Normal tt) /\
  (forall env st name message,
     Local.getUserMedia env = Throw (ErrorObject name message) ->
     error (exec (Local.startDetection env) st) =
       Some (if String.eqb name "NotAllowedError" then
               "Camera access denied. Please allow camera access in your browser settings and refresh the page."
             else if String.eqb name "NotFoundError" then
               "No camera found. Please connect a camera and try again."
             else if JS.truthy message then message
             else "Failed to start camera. Please try again.")) /\
  (forall env st name message,
     trackerReady env = true ->
     Remote.getUserMedia env = Throw (ErrorObject name message) ->
     error (exec (Remote.startDetection env) st) =
       Some (if String.eqb name "NotAllowedError" then
               "Camera access denied. Please allow camera access in your browser settings."
             else if String.eqb name "NotFoundError" then
               "No camera found. Please connect a camera and try again."
             else if JS.truthy message then message
             else "Failed to start detection. Please try again.")) /\
  (forall env st,
     trackerReady env = false ->
     error (exec (Remote.startDetection env) st) =
       Some "Failed to load hand tracking. Please try again.") /\
  (forall env st,
     Local.getUserMedia env = Normal tt ->
     Local.elementsMounted env = true ->
     Local.videoReady env = Normal tt ->
     Local.scriptLoad env = Local.LoadFailed ->
     error (exec (Local.startDetection env) st) = None /\
     isActive (exec (Local.startDetection env) st) = true /\
     console (exec (Local.startDetection env) st) =
       console st ++ ["MediaPipe not available, using camera only mode:"]).
Proof.
  split; [exact local_startDetection_returns|].
  split; [exact remote_startDetection_returns|].
  split; [exact local_camera_error|].
  split; [exact remote_camera_error|].
  split; [exact remote_tracker_error|].
  exact local_tracker_error.
Qed.

Lemma startDetection_failures_caught_witness :
  error (exec (Local.startDetection cameraDenied) initialState) =
    Some "Camera access denied. Please allow camera access in your browser settings and refresh the page.".
Proof.
  apply (proj1 (proj2 (proj2 startDetection_failures_caught))
           cameraDenied initialState "NotAllowedError" "Permission denied").
  reflexivity.
Defined.

(** C6 fails as stated.  In the later revision a tracker script that fails
    to load leaves no error to display: the failure goes to the console and
    the camera runs without detection.  And a camera failure other than the
    two named ones is shown with the browser's own message, not a fixed one. *)
Lemma tracker_load_failure_not_shown :
  Local.scriptLoad trackerUnavailable = Local.LoadFailed /\
  error (exec (Local.startDetection trackerUnavailable) initialState) = None /\
  isActive (exec (Local.startDetection trackerUnavailable) initialState) = true /\
  error (exec (Local.startDetection cameraBusy) initialState) =
    Some "Could not start video source".
Proof. vm_compute. repeat split; reflexivity. Qed.

(** * Further properties *)

(** ** Which hands give which label *)

Lemma classifyGesture_rules (M : JS.MathLib) (landmarks : list (list float)) :
  List.length landmarks = 21 ->
  answerOf M landmarks =
    Normal (ruleChain (thumbExtended landmarks) (indexExtended landmarks)
              (middleExtended landmarks) (ringExtended landmarks)
              (pinkyExtended landmarks) (thumbIndexNear M landmarks)).
Proof.
  intros Hlen. explode_landmarks landmarks.
  unfold answerOf, thumbExtended, indexExtended, middleExtended, ringExtended,
    pinkyExtended, thumbIndexNear, thumbIndexDist, landmark, xOf, yOf.
  cbn [nth].
  unfold classifyGesture, at_index, prop, bind, ret.
  cbn [List.length Nat.eqb negb nth_error app filter].
  split_fingers; reflexivity.
Qed.

Ltac by_finger_cases :=
  intros Hlen; rewrite (classifyGesture_rules _ _ Hlen);
  unfold matched, ruleChain, unmatchedPattern;
  destruct (thumbExtended _), (indexExtended _), (middleExtended _),
    (ringExtended _), (pinkyExtended _);
  try destruct (thumbIndexNear _ _);
  cbn; repeat split; intros; try discriminate; try reflexivity;
  repeat match goal with
         | H : _ /\ _ |- _ => destruct H
         end;
  try discriminate.

(** With the four fingers folded the classifier always answers: "Yes" when
    the thumb is extended, "No" when it is not; and these are the only hands
    that get these two labels. *)
Theorem yes_and_no_are_the_folded_hands
    (M : JS.MathLib) (landmarks : list (list float)) :
  List.length landmarks = 21 ->
  (answerOf M landmarks = matched "Yes" 0.85 <->
   thumbExtended landmarks = true /\ indexExtended landmarks = false /\
   middleExtended landmarks = false /\ ringExtended landmarks = false /\
   pinkyExtended landmarks = false) /\
  (answerOf M landmarks = matched "No" 0.80 <->
   thumbExtended landmarks = false /\ indexExtended landmarks = false /\
   middleExtended landmarks = false /\ ringExtended landmarks = false /\
   pinkyExtended landmarks = false).
Proof. by_finger_cases. Qed.

Lemma yes_and_no_are_the_folded_hands_witness :
  answerOf JS.ieeeMath fist = matched "No" 0.80.
Proof.
  apply (proj2 (yes_and_no_are_the_folded_hands JS.ieeeMath fist eq_refl)).
  vm_compute. repeat split; reflexivity.
Defined.

(** The labels "1", "2" and "3" go by the index, middle, ring and little
    finger alone: the thumb plays no part. *)
Theorem digits_one_to_three_ignore_the_thumb
    (M : JS.MathLib) (landmarks : list (list float)) :
  List.length landmarks = 21 ->
  (answerOf M landmarks = matched "1" 0.85 <->
   indexExtended landmarks = true /\ middleExtended landmarks = false /\
   ringExtended landmarks = false /\ pinkyExtended landmarks = false) /\
  (answerOf M landmarks = matched "2" 0.82 <->
   indexExtended landmarks = true /\ middleExtended landmarks = true /\
   ringExtended landmarks = false /\ pinkyExtended landmarks = false) /\
  (answerOf M landmarks = matched "3" 0.80 <->
   indexExtended landmarks = true /\ middleExtended landmarks = true /\
   ringExtended landmarks = true /\ pinkyExtended landmarks = false).
Proof. by_finger_cases. Qed.

Lemma digits_one_to_three_ignore_the_thumb_witness :
  answerOf JS.ieeeMath (pose thumbOut tipUp tipUp tipDown tipDown)
    = matched "2" 0.82.
Proof.
  apply (proj1 (proj2 (digits_one_to_three_ignore_the_thumb JS.ieeeMath
                         (pose thumbOut tipUp tipUp tipDown tipDown) eq_refl))).
  vm_compute. repeat split; reflexivity.
Defined.

(** With the four fingers extended the thumb decides between "4" (thumb not
    extended) and "Hello" (thumb extended), and no other hand gets either. *)
Theorem four_and_hello_differ_by_the_thumb
    (M : JS.MathLib) (landmarks : list (list float)) :
  List.length landmarks = 21 ->
  (answerOf M landmarks = matched "4" 0.80 <->
   thumbExtended landmarks = false /\ indexExtended landmarks = true /\
   middleExtended landmarks = true /\ ringExtended landmarks = true /\
   pinkyExtended landmarks = true) /\
  (answerOf M landmarks = matched "Hello" 0.88 <->
   thumbExtended landmarks = true /\ indexExtended landmarks = true /\
   middleExtended landmarks = true /\ ringExtended landmarks = true /\
   pinkyExtended landmarks = true).
Proof. by_finger_cases. Qed.

Lemma four_and_hello_differ_by_the_thumb_witness :
  answerOf JS.ieeeMath (pose thumbIn tipUp tipUp tipUp tipUp)
    = matched "4" 0.80.
Proof.
  apply (proj1 (four_and_hello_differ_by_the_thumb JS.ieeeMath
                  (pose thumbIn tipUp tipUp tipUp tipUp) eq_refl)).
  vm_compute. repeat split; reflexivity.
Defined.

(** "Thank You" is answered exactly when the thumb tip is within 0.1 of the
    index tip, the index is not extended and the other three fingers are:
    with the index extended an earlier rule ("4" or "Hello") answers first.
    "I Love You" is answered exactly for thumb, index and little finger
    extended with middle and ring folded. *)
Theorem thank_you_needs_a_folded_index
    (M : JS.MathLib) (landmarks : list (list float)) :
  List.length landmarks = 21 ->
  (answerOf M landmarks = matched "Thank You" 0.82 <->
   thumbIndexNear M landmarks = true /\ indexExtended landmarks = false /\
   middleExtended landmarks = true /\ ringExtended landmarks = true /\
   pinkyExtended landmarks = true) /\
  (answerOf M landmarks = matched "I Love You" 0.85 <->
   thumbExtended landmarks = true /\ indexExtended landmarks = true /\
   middleExtended landmarks = false /\ ringExtended landmarks = false /\
   pinkyExtended landmarks = true).
Proof. by_finger_cases. Qed.

Lemma thank_you_needs_a_folded_index_witness :
  answerOf JS.ieeeMath (pose tipDown tipDown tipUp tipUp tipUp)
    = matched "Thank You" 0.82.
Proof.
  apply (proj1 (thank_you_needs_a_folded_index JS.ieeeMath
                  (pose tipDown tipDown tipUp tipUp tipUp) eq_refl)).
  vm_compute. repeat split; reflexivity.
Defined.

(** The hands that get no label at all: index and ring without middle;
    index and little finger alone without the thumb; index, middle and
    little finger without ring; and, with the index folded, any extended
    finger unless it is the "Thank You" hand. *)
Theorem unmatched_hands
    (M : JS.MathLib) (landmarks : list (list float)) :
  List.length landmarks = 21 ->
  (answerOf M landmarks = Normal None <->
   unmatchedPattern (thumbExtended landmarks) (indexExtended landmarks)
     (middleExtended landmarks) (ringExtended landmarks)
     (pinkyExtended landmarks) (thumbIndexNear M landmarks) = true).
Proof. by_finger_cases. Qed.

Lemma unmatched_hands_witness :
  answerOf JS.ieeeMath (pose thumbIn tipDown tipUp tipDown tipDown)
    = Normal None.
Proof.
  apply (proj2 (unmatched_hands JS.ieeeMath
                  (pose thumbIn tipDown tipUp tipDown tipDown) eq_refl)).
  vm_compute. reflexivity.
Defined.

(** ** What the classifier looks at *)

(** The answer depends on twelve numbers only: x of landmark 3, x and y of
    the thumb and index tips, and y of the index knuckle and of the tips and
    knuckles of the other three fingers.  Two hands that agree on them get
    the same answer, whatever their z coordinates and other joints. *)
Theorem classifyGesture_reads_twelve_numbers
    (M : JS.MathLib) (a b : list (list float)) :
  List.length a = 21 -> List.length b = 21 ->
  xOf (landmark a 3) = xOf (landmark b 3) ->
  xOf (landmark a 4) = xOf (landmark b 4) ->
  yOf (landmark a 4) = yOf (landmark b 4) ->
  xOf (landmark a 8) = xOf (landmark b 8) ->
  yOf (landmark a 8) = yOf (landmark b 8) ->
  yOf (landmark a 5) = yOf (landmark b 5) ->
  yOf (landmark a 12) = yOf (landmark b 12) ->
  yOf (landmark a 9) = yOf (landmark b 9) ->
  yOf (landmark a 16) = yOf (landmark b 16) ->
  yOf (landmark a 13) = yOf (landmark b 13) ->
  yOf (landmark a 20) = yOf (landmark b 20) ->
  yOf (landmark a 17) = yOf (landmark b 17) ->
  answerOf M a = answerOf M b.
Proof.
  intros Ha Hb Hx3 Hx4 Hy4 Hx8 Hy8 Hy5 Hy12 Hy9 Hy16 Hy13 Hy20 Hy17.
  rewrite (classifyGesture_rules M a Ha), (classifyGesture_rules M b Hb).
  unfold thumbExtended, indexExtended, middleExtended, ringExtended,
    pinkyExtended, thumbIndexNear, thumbIndexDist.
  rewrite Hx3, Hx4, Hy4, Hx8, Hy8, Hy5, Hy12, Hy9, Hy16, Hy13, Hy20, Hy17.
  reflexivity.
Qed.

Lemma classifyGesture_reads_twelve_numbers_witness :
  answerOf JS.ieeeMath (pose thumbOut tipUp tipUp tipUp tipUp) =
  answerOf JS.ieeeMath
    (map (fun p => [JS.coord p 0; JS.coord p 1; 7]%float)
       (pose thumbOut tipUp tipUp tipUp tipUp)).
Proof.
  apply (classifyGesture_reads_twelve_numbers JS.ieeeMath
           (pose thumbOut tipUp tipUp tipUp tipUp)
           (map (fun p => [JS.coord p 0; JS.coord p 1; 7]%float)
              (pose thumbOut tipUp tipUp tipUp tipUp)));
    reflexivity.
Defined.

Lemma ltb_nan_left (x : float) : PrimFloat.ltb nan x = false.
Proof. rewrite ltb_spec. reflexivity. Qed.

(** Coordinates that are missing or NaN make every finger test fail: a hand
    whose five finger tips have no usable coordinates is answered as the
    closed fist, "No", not as no match. *)
Theorem missing_tip_coordinates_read_as_fist
    (M : JS.MathLib) (landmarks : list (list float)) :
  List.length landmarks = 21 ->
  xOf (landmark landmarks 4) = nan ->
  yOf (landmark landmarks 8) = nan ->
  yOf (landmark landmarks 12) = nan ->
  yOf (landmark landmarks 16) = nan ->
  yOf (landmark landmarks 20) = nan ->
  answerOf M landmarks = matched "No" 0.80.
Proof.
  intros Hlen Hx4 Hy8 Hy12 Hy16 Hy20.
  rewrite (classifyGesture_rules M landmarks Hlen).
  unfold thumbExtended, indexExtended, middleExtended, ringExtended,
    pinkyExtended.
  rewrite Hx4, Hy8, Hy12, Hy16, Hy20, !ltb_nan_left. reflexivity.
Qed.

Lemma missing_tip_coordinates_read_as_fist_witness :
  answerOf JS.ieeeMath blindTips = matched "No" 0.80.
Proof.
  apply (missing_tip_coordinates_read_as_fist JS.ieeeMath blindTips);
    reflexivity.
Defined.

(** ** Drawing the hand *)

Lemma dots_drawn (radius width height : float) (landmarks : list Landmark) :
  exists cmds,
    forOf (fun lm : Landmark =>
             (draw BeginPath ;;
              draw (Arc (PrimFloat.mul (lm_x lm) width)
                        (PrimFloat.mul (lm_y lm) height)
                        radius 0 (PrimFloat.mul 2 Math_PI)) ;;
              draw Fill)%draw)
          landmarks = (cmds, Normal tt) /\
    List.length (filter isDot cmds) = List.length landmarks /\
    List.length (filter isStroke cmds) = 0.
Proof.
  induction landmarks as [| lm rest (cmds & Heq & Hdots & Hstrokes)].
  - exists []. repeat split.
  - cbn [forOf]. rewrite Heq. unfold thenDraw, draw. cbn.
    eexists. split; [reflexivity|]. cbn. split; [rewrite Hdots; reflexivity|].
    exact Hstrokes.
Qed.

Lemma drawHand_full (lineWidth radius : float) (landmarks : list Landmark)
    (width height : float) :
  21 <= List.length landmarks ->
  snd (drawHand lineWidth radius landmarks width height) = Normal tt /\
  List.length (filter isStroke
                 (fst (drawHand lineWidth radius landmarks width height))) = 23 /\
  List.length (filter isDot
                 (fst (drawHand lineWidth radius landmarks width height)))
    = List.length landmarks.
Proof.
  intros Hlen.
  destruct (dots_drawn radius width height landmarks)
    as (dots & Hdots & Hcount & Hnone).
  unfold drawHand. rewrite Hdots.
  do 21 (destruct landmarks as [| ? landmarks]; [cbn in Hlen; lia|]).
  unfold HAND_CONNECTIONS, forOf, thenDraw, field, draw, drawn.
  cbn [nth_error fst snd app].
  repeat split.
  - cbn [filter isStroke List.length]. rewrite Hnone. reflexivity.
  - cbn [filter isDot List.length] in *. exact Hcount.
Qed.

Lemma drawHand_short (lineWidth radius : float) (landmarks : list Landmark)
    (width height : float) :
  List.length landmarks < 21 ->
  snd (drawHand lineWidth radius landmarks width height) =
    Throw (ErrorObject "TypeError" "Cannot read properties of undefined") /\
  List.length (filter isDot
                 (fst (drawHand lineWidth radius landmarks width height))) = 0.
Proof.
  intros Hlen.
  do 21 (destruct landmarks as [| ? landmarks];
         [ unfold drawHand, HAND_CONNECTIONS, forOf, thenDraw, field, draw, drawn;
           cbn; split; reflexivity | ]).
  cbn in Hlen. lia.
Qed.

(** On a hand of 21 landmarks or more, [drawHandLandmarks] (either revision)
    throws nothing and draws the 23 segments of the skeleton and one dot per
    landmark. *)
Theorem drawHandLandmarks_draws_skeleton
    (lineWidth radius : float) (landmarks : list Landmark)
    (width height : float) :
  21 <= List.length landmarks ->
  snd (drawHand lineWidth radius landmarks width height) = Normal tt /\
  List.length (filter isStroke
                 (fst (drawHand lineWidth radius landmarks width height))) = 23 /\
  List.length (filter isDot
                 (fst (drawHand lineWidth radius landmarks width height)))
    = List.length landmarks.
Proof. apply drawHand_full. Qed.

Lemma drawHandLandmarks_draws_skeleton_witness :
  snd (LocalCanvas.drawHandLandmarks (centredHand 21) 640 480) = Normal tt /\
  List.length (filter isStroke
     (fst (LocalCanvas.drawHandLandmarks (centredHand 21) 640 480))) = 23 /\
  List.length (filter isDot
     (fst (LocalCanvas.drawHandLandmarks (centredHand 21) 640 480))) = 21.
Proof.
  apply (drawHandLandmarks_draws_skeleton 3 5 (centredHand 21) 640 480).
  cbn. lia.
Defined.

(** On a hand of fewer than 21 landmarks, [drawHandLandmarks] (either
    revision) throws a [TypeError] while drawing the skeleton, before any dot
    is drawn: every landmark index from 0 to 20 is the end of some segment. *)
Theorem drawHandLandmarks_throws_on_short_hand
    (lineWidth radius : float) (landmarks : list Landmark)
    (width height : float) :
  List.length landmarks < 21 ->
  snd (drawHand lineWidth radius landmarks width height) =
    Throw (ErrorObject "TypeError" "Cannot read properties of undefined") /\
  List.length (filter isDot
                 (fst (drawHand lineWidth radius landmarks width height))) = 0.
Proof. apply drawHand_short. Qed.

Lemma drawHandLandmarks_throws_on_short_hand_witness :
  snd (RemoteCanvas.drawHandLandmarks 640 480 (centredHand 20)) =
    Throw (ErrorObject "TypeError" "Cannot read properties of undefined") /\
  List.length (filter isDot
     (fst (RemoteCanvas.drawHandLandmarks 640 480 (centredHand 20)))) = 0.
Proof.
  apply (drawHandLandmarks_throws_on_short_hand 2 4 (centredHand 20) 640 480).
  cbn. lia.
Defined.

(** ** The callback with its canvas and clock *)


(** A callback that gets as far as the throttle does to the component what
    [Local.onResults] does. *)
Lemma canvas_onResults_drawn (p : Props) (M : JS.MathLib)
    (page : LocalCanvas.Page) (now : Z) (hands : list (list Landmark))
    (answer : completion (option string)) (s : LocalCanvas.Screen) :
  LocalCanvas.mounted page = true ->
  LocalCanvas.context2d page = true ->
  match hands with
  | landmarks :: _ => 21 <= List.length landmarks
  | [] => True
  end ->
  let due := (now - LocalCanvas.lastDetectionRef s >? 800)%Z in
  let s' := fst (LocalCanvas.onResults p M page now hands answer s) in
  snd (LocalCanvas.onResults p M page now hands answer s) = Normal tt /\
  LocalCanvas.ui s' =
    exec (Local.onResults p M hands due answer) (LocalCanvas.ui s) /\
  LocalCanvas.lastDetectionRef s' =
    match hands with
    | _ :: _ => if due then now else LocalCanvas.lastDetectionRef s
    | [] => LocalCanvas.lastDetectionRef s
    end.
Proof.
  intros Hm Hc Hlen due s'. subst due s'.
  unfold LocalCanvas.onResults. rewrite Hm, Hc. cbn [negb].
  unfold exec. rewrite onResults_run.
  destruct hands as [| landmarks others]; [repeat split; reflexivity|].
  assert (Hlen' : 21 <= List.length (map LocalCanvas.mirror landmarks))
    by (rewrite length_map; exact Hlen).
  destruct (drawHand_full 3 5 (map LocalCanvas.mirror landmarks)
              (LocalCanvas.width page) (LocalCanvas.height page) Hlen')
    as (Hok & _).
  unfold LocalCanvas.drawHandLandmarks.
  destruct (drawHand 3 5 (map LocalCanvas.mirror landmarks)
              (LocalCanvas.width page) (LocalCanvas.height page))
    as [cmds c].
  cbn [snd] in Hok. subst c. cbn [fst LocalCanvas.lastDetectionRef
    LocalCanvas.paint LocalCanvas.onUi LocalCanvas.ui].
  destruct (now - LocalCanvas.lastDetectionRef s >? 800)%Z;
    [| repeat split; reflexivity].
  destruct (classifyGesture_total M (map Local.toArray landmarks))
    as (reads & r & Hr & _).
  rewrite Hr. cbn [snd].
  destruct r as [r|]; repeat split; reflexivity.
Qed.

Lemma canvas_onResults_short (p : Props) (M : JS.MathLib)
    (page : LocalCanvas.Page) (now : Z) (landmarks : list Landmark)
    (others : list (list Landmark))
    (answer : completion (option string)) (s : LocalCanvas.Screen) :
  LocalCanvas.mounted page = true ->
  LocalCanvas.context2d page = true ->
  List.length landmarks < 21 ->
  let s' :=
    fst (LocalCanvas.onResults p M page now (landmarks :: others) answer s) in
  snd (LocalCanvas.onResults p M page now (landmarks :: others) answer s) =
    Throw (ErrorObject "TypeError" "Cannot read properties of undefined") /\
  LocalCanvas.ui s' = setHandDetected true (LocalCanvas.ui s) /\
  LocalCanvas.lastDetectionRef s' = LocalCanvas.lastDetectionRef s.
Proof.
  intros Hm Hc Hlen s'. subst s'.
  unfold LocalCanvas.onResults. rewrite Hm, Hc. cbn [negb].
  assert (Hlen' : List.length (map LocalCanvas.mirror landmarks) < 21)
    by (rewrite length_map; exact Hlen).
  destruct (drawHand_short 3 5 (map LocalCanvas.mirror landmarks)
              (LocalCanvas.width page) (LocalCanvas.height page) Hlen')
    as (Hthrow & _).
  unfold LocalCanvas.drawHandLandmarks.
  destruct (drawHand 3 5 (map LocalCanvas.mirror landmarks)
              (LocalCanvas.width page) (LocalCanvas.height page))
    as [cmds c].
  cbn [snd] in Hthrow. subst c. repeat split; reflexivity.
Qed.

(** A callback either processes a detection, more than 800 ms after the last
    one, or leaves the gesture, the text, the gate and the clock as they
    were. *)
Lemma canvas_step_cases (p : Props) (M : JS.MathLib)
    (page : LocalCanvas.Page) (now : Z) (hands : list (list Landmark))
    (answer : completion (option string)) (s : LocalCanvas.Screen) :
  let s' := LocalCanvas.step p M s (LocalCanvas.OnResults page now hands answer) in
  ((now - LocalCanvas.lastDetectionRef s > 800)%Z /\
   LocalCanvas.lastDetectionRef s' = now /\
   LocalCanvas.ui s' =
     Local.step p M (LocalCanvas.ui s) (Local.Results hands true answer)) \/
  (LocalCanvas.lastDetectionRef s' = LocalCanvas.lastDetectionRef s /\
   shown (LocalCanvas.ui s') = shown (LocalCanvas.ui s) /\
   lastGestureRef (LocalCanvas.ui s') = lastGestureRef (LocalCanvas.ui s) /\
   gestureCountRef (LocalCanvas.ui s') = gestureCountRef (LocalCanvas.ui s)).
Proof.
  intros s'. subst s'. cbn [LocalCanvas.step].
  destruct (LocalCanvas.mounted page) eqn:Hm;
    [| right; unfold LocalCanvas.onResults; rewrite Hm; repeat split].
  destruct (LocalCanvas.context2d page) eqn:Hc;
    [| right; unfold LocalCanvas.onResults; rewrite Hm, Hc; repeat split].
  destruct hands as [| landmarks others].
  - right. unfold LocalCanvas.onResults. rewrite Hm, Hc. repeat split.
  - destruct (Nat.lt_ge_cases (List.length landmarks) 21) as [Hshort | Hlong].
    + right.
      destruct (canvas_onResults_short p M page now landmarks others answer s
                  Hm Hc Hshort) as (_ & Hui & Hlast).
      rewrite Hui, Hlast. repeat split.
    + destruct (canvas_onResults_drawn p M page now (landmarks :: others)
                  answer s Hm Hc Hlong) as (_ & Hui & Hlast).
      rewrite Hui, Hlast.
      destruct (now - LocalCanvas.lastDetectionRef s >? 800)%Z eqn:Hdue.
      * left. apply Z.gtb_lt in Hdue. repeat split. lia.
      * right. repeat split.
Qed.




(** When the page is mounted and the first hand has 21 landmarks or more (or
    there is no hand), the whole callback throws nothing, does to the
    component exactly what [Local.onResults] does with [due] read off the
    clock, and moves the clock only when it processes a detection. *)
Theorem callback_agrees_with_onResults (p : Props) (M : JS.MathLib)
    (page : LocalCanvas.Page) (now : Z) (hands : list (list Landmark))
    (answer : completion (option string)) (s : LocalCanvas.Screen) :
  LocalCanvas.mounted page = true ->
  LocalCanvas.context2d page = true ->
  match hands with
  | landmarks :: _ => 21 <= List.length landmarks
  | [] => True
  end ->
  let due := (now - LocalCanvas.lastDetectionRef s >? 800)%Z in
  let s' := fst (LocalCanvas.onResults p M page now hands answer s) in
  snd (LocalCanvas.onResults p M page now hands answer s) = Normal tt /\
  LocalCanvas.ui s' =
    exec (Local.onResults p M hands due answer) (LocalCanvas.ui s) /\
  LocalCanvas.lastDetectionRef s' =
    match hands with
    | _ :: _ => if due then now else LocalCanvas.lastDetectionRef s
    | [] => LocalCanvas.lastDetectionRef s
    end.
Proof. apply canvas_onResults_drawn. Qed.

Lemma callback_agrees_with_onResults_witness :
  let s' :=
    fst (LocalCanvas.onResults enProps JS.ieeeMath readyPage 1000
           [asHand fist] (Normal None) LocalCanvas.initialScreen) in
  snd (LocalCanvas.onResults enProps JS.ieeeMath readyPage 1000
         [asHand fist] (Normal None) LocalCanvas.initialScreen) = Normal tt /\
  LocalCanvas.ui s' =
    exec (Local.onResults enProps JS.ieeeMath [asHand fist] true (Normal None))
      initialState /\
  LocalCanvas.lastDetectionRef s' = 1000%Z.
Proof.
  apply (callback_agrees_with_onResults enProps JS.ieeeMath readyPage 1000
           [asHand fist] (Normal None) LocalCanvas.initialScreen);
    [reflexivity | reflexivity | cbn; lia].
Defined.

(** When the first hand has fewer than 21 landmarks the callback throws a
    [TypeError] while drawing it: the hand indicator is set, and nothing is
    classified, counted or timed. *)
Theorem callback_throws_on_short_hand (p : Props) (M : JS.MathLib)
    (page : LocalCanvas.Page) (now : Z) (landmarks : list Landmark)
    (others : list (list Landmark))
    (answer : completion (option string)) (s : LocalCanvas.Screen) :
  LocalCanvas.mounted page = true ->
  LocalCanvas.context2d page = true ->
  List.length landmarks < 21 ->
  let s' :=
    fst (LocalCanvas.onResults p M page now (landmarks :: others) answer s) in
  snd (LocalCanvas.onResults p M page now (landmarks :: others) answer s) =
    Throw (ErrorObject "TypeError" "Cannot read properties of undefined") /\
  LocalCanvas.ui s' = setHandDetected true (LocalCanvas.ui s) /\
  LocalCanvas.lastDetectionRef s' = LocalCanvas.lastDetectionRef s.
Proof. apply canvas_onResults_short. Qed.

Lemma callback_throws_on_short_hand_witness :
  snd (LocalCanvas.onResults enProps JS.ieeeMath readyPage 1000
         [centredHand 20] (Normal None) LocalCanvas.initialScreen) =
    Throw (ErrorObject "TypeError" "Cannot read properties of undefined").
Proof.
  apply (callback_throws_on_short_hand enProps JS.ieeeMath readyPage 1000
           (centredHand 20) [] (Normal None) LocalCanvas.initialScreen);
    [reflexivity | reflexivity | cbn; lia].
Defined.

(** A callback that comes 800 ms or less after the last processed detection
    changes neither the gesture on display, nor the text, nor the gate, nor
    the clock. *)
Theorem throttled_callback_changes_nothing (p : Props) (M : JS.MathLib)
    (page : LocalCanvas.Page) (now : Z) (hands : list (list Landmark))
    (answer : completion (option string)) (s : LocalCanvas.Screen) :
  (now - LocalCanvas.lastDetectionRef s <= 800)%Z ->
  let s' := LocalCanvas.step p M s (LocalCanvas.OnResults page now hands answer) in
  LocalCanvas.lastDetectionRef s' = LocalCanvas.lastDetectionRef s /\
  shown (LocalCanvas.ui s') = shown (LocalCanvas.ui s) /\
  lastGestureRef (LocalCanvas.ui s') = lastGestureRef (LocalCanvas.ui s) /\
  gestureCountRef (LocalCanvas.ui s') = gestureCountRef (LocalCanvas.ui s).
Proof.
  intros Hsoon s'.
  destruct (canvas_step_cases p M page now hands answer s)
    as [(Hdue & _) | Hsame]; [lia | exact Hsame].
Qed.

Lemma throttled_callback_changes_nothing_witness :
  let s := LocalCanvas.runFrom enProps JS.ieeeMath LocalCanvas.initialScreen
             [frameAt 1000 fist; frameAt 2000 fist] in
  gestureCountRef (LocalCanvas.ui
    (LocalCanvas.step enProps JS.ieeeMath s (frameAt 2500 fist))) = 2.
Proof.
  intros s.
  transitivity (gestureCountRef (LocalCanvas.ui s)); [| reflexivity].
  apply (throttled_callback_changes_nothing enProps JS.ieeeMath readyPage 2500
           [asHand fist] (Normal None) s).
  vm_compute. discriminate.
Defined.



(** ** Runs of the later revision *)








Lemma step_display (p : Props) (M : JS.MathLib) (st : State) (e : Local.Event) :
  (currentGesture (Local.step p M st e), shownConfidence (Local.step p M st e))
    = (currentGesture st, shownConfidence st) \/
  (currentGesture (Local.step p M st e), shownConfidence (Local.step p M st e))
    = (EmptyString, 0%float) \/
  In (currentGesture (Local.step p M st e),
      shownConfidence (Local.step p M st e)) rule_table.
Proof.
  destruct e as [hands due answer | |]; cbn [Local.step].
  - unfold exec. rewrite onResults_run. cbn [fst].
    destruct hands as [| landmarks others]; [left; reflexivity|].
    destruct due; [| left; reflexivity].
    destruct (classifyGesture_total M (map Local.toArray landmarks))
      as (reads & r & Hr & Hcases).
    rewrite Hr. cbn [snd].
    destruct Hcases as [-> | (res & -> & Hin)]; [left; reflexivity|].
    unfold exec. rewrite processGesture_run. cbn [fst].
    destruct (publishes (gesture res) _); [| left; reflexivity].
    right. right.
    destruct (addIfDifferent_refs p (displayLabel p answer (gesture res))
      (translationLogs p answer (gesture res)
         (setConfidence (confidence res)
            (setCurrentGesture (gesture res)
               (counted (gesture res)
                  (setIsDetecting true (setHandDetected true st)))))))
      as (_ & _ & Hcur & Hconf & _).
    cbn. rewrite Hcur, Hconf. unfold translationLogs.
    destruct (String.eqb (language p) "en"); [exact Hin|].
    destruct answer; exact Hin.
  - left. unfold clearText, callOnDetection. eff. cbn.
    destruct (onDetection p); reflexivity.
  - right. left. reflexivity.
Qed.

(** Whatever the frames, clears and stops, the gesture on display with its
    confidence is either nothing (the empty label with confidence 0) or one
    of the nine labels with the confidence of its rule. *)
Theorem displayed_gesture_is_a_rule (p : Props) (M : JS.MathLib)
    (events : list Local.Event) :
  In (currentGesture (Local.run p M events),
      shownConfidence (Local.run p M events))
     ((EmptyString, 0%float) :: rule_table).
Proof.
  induction events as [| e events IH] using rev_ind.
  - left. reflexivity.
  - rewrite run_snoc.
    destruct (step_display p M (Local.run p M events) e) as [H | [H | H]].
    + rewrite H. exact IH.
    + rewrite H. left. reflexivity.
    + right. exact H.
Qed.

Lemma joinedLabels_append (text d : string) :
  JoinedLabels text -> In d labels -> JoinedLabels (appendText text d).
Proof.
  intros (ls & Hall & ->) Hd. exists (ls ++ [d]). split.
  - apply Forall_app. split; [exact Hall|].
    constructor; [exact Hd | constructor].
  - symmetry. apply concat_snoc.
    apply Forall_impl with (P := fun l => In l labels); [| exact Hall].
    intros l Hl. apply labels_clean. exact Hl.
Qed.

(** With the language 'en', whatever the frames, clears and stops, the
    accumulated text is a sequence of the nine labels joined by single
    spaces. *)
Theorem english_text_is_made_of_labels (p : Props) (M : JS.MathLib)
    (events : list Local.Event) :
  language p = "en" ->
  JoinedLabels (detectedText (Local.run p M events)).
Proof.
  intros Hen. induction events as [| e events IH] using rev_ind.
  - exists []. split; [constructor | reflexivity].
  - rewrite run_snoc, step_text.
    destruct e as [hands due answer | |]; [| | exact IH].
    + destruct (processed M (Local.Results hands due answer)) as [g|] eqn:Hg;
        [| exact IH].
      destruct (publishes g (Local.run p M events)); [| exact IH].
      unfold displayLabel. rewrite Hen. cbn [String.eqb Ascii.eqb Bool.eqb].
      unfold distinctAppend.
      destruct (JS.last_elem (words (detectedText (Local.run p M events))))
        as [w|]; [destruct (String.eqb w g); [exact IH|]|];
        apply joinedLabels_append;
        first [exact IH | exact (processed_in_labels M _ g Hg)].
    + exists []. split; [constructor | reflexivity].
Qed.

Lemma english_text_is_made_of_labels_witness :
  JoinedLabels
    (detectedText
       (Local.run enProps JS.ieeeMath
          (repeat (openHandFrame (Normal None)) 3 ++
           repeat (thankYouFrame (Normal None)) 3))).
Proof.
  apply (english_text_is_made_of_labels enProps JS.ieeeMath). reflexivity.
Defined.

(** ** Keeping the parent informed *)

Lemma last_elem_snoc {A : Type} (l : list A) (x : A) :
  JS.last_elem (l ++ [x]) = Some x.
Proof. rewrite last_elem_app; [reflexivity | discriminate]. Qed.

Lemma parentInformed_same (st st' : State) :
  detectedText st' = detectedText st ->
  onDetectionCalls st' = onDetectionCalls st ->
  parentInformed st -> parentInformed st'.
Proof. unfold parentInformed. intros -> ->. exact (fun H => H). Qed.

Lemma parentInformed_told (st : State) (text : string) :
  parentInformed
    (setDetectedText text
       (setOnDetectionCalls (onDetectionCalls st ++ [text]) st)).
Proof. right. cbn. apply last_elem_snoc. Qed.

Lemma addIfDifferent_informed (p : Props) (d : string) (st : State) :
  onDetection p = true -> parentInformed st ->
  parentInformed (Local.addIfDifferent p d st).
Proof.
  intros Hcb Hst. unfold Local.addIfDifferent, callOnDetection. rewrite Hcb.
  destruct (JS.last_elem _) as [w|]; [destruct (String.eqb w d)|];
    cbn [negb]; first [exact Hst | apply parentInformed_told].
Qed.

Lemma clearText_informed (p : Props) (st : State) :
  onDetection p = true -> parentInformed (exec (clearText p) st).
Proof.
  intros Hcb. unfold clearText, callOnDetection. eff. cbn. rewrite Hcb.
  right. cbn. apply last_elem_snoc.
Qed.

Lemma local_step_informed (p : Props) (M : JS.MathLib) (st : State)
    (e : Local.Event) :
  onDetection p = true -> parentInformed st ->
  parentInformed (Local.step p M st e).
Proof.
  intros Hcb Hst. destruct e as [hands due answer | |]; cbn [Local.step].
  - unfold exec. rewrite onResults_run. cbn [fst].
    destruct hands as [| landmarks others];
      [exact (parentInformed_same st _ eq_refl eq_refl Hst)|].
    destruct due; [| exact (parentInformed_same st _ eq_refl eq_refl Hst)].
    destruct (snd (classifyGesture M (map Local.toArray landmarks)))
      as [[r|] | err];
      try exact (parentInformed_same st _ eq_refl eq_refl Hst).
    unfold exec. rewrite processGesture_run. cbn [fst].
    destruct (publishes (gesture r) _);
      [| exact (parentInformed_same st _ eq_refl eq_refl Hst)].
    set (before := translationLogs p answer (gesture r)
                     (setConfidence (confidence r)
                        (setCurrentGesture (gesture r)
                           (counted (gesture r)
                              (setIsDetecting true (setHandDetected true st)))))).
    apply (parentInformed_same
             (Local.addIfDifferent p (displayLabel p answer (gesture r)) before));
      [reflexivity | reflexivity |].
    subst before.
    apply addIfDifferent_informed; [exact Hcb|].
    apply (parentInformed_same st); [| | exact Hst];
      unfold translationLogs;
      destruct (String.eqb (language p) "en"); try reflexivity;
      destruct answer; reflexivity.
  - apply clearText_informed. exact Hcb.
  - exact (parentInformed_same st _ eq_refl eq_refl Hst).
Qed.

Lemma remote_step_informed (p : Props) (st : State) (e : Remote.Event) :
  onDetection p = true -> parentInformed st ->
  parentInformed (Remote.step p st e).
Proof.
  intros Hcb Hst. destruct e as [landmarks reply answer | |]; cbn [Remote.step].
  - destruct landmarks as [| lm rest];
      [exact (parentInformed_same st _ eq_refl eq_refl Hst)|].
    unfold Remote.processLandmarks, invokeTranslate, Remote.addText,
      callOnDetection.
    rewrite Hcb. eff. cbn.
    destruct reply as [[[d|] [|]] | err]; cbn;
      try exact (parentInformed_same st _ eq_refl eq_refl Hst).
    destruct (Remote.detected d && JS.truthy (Remote.gesture d)); cbn;
      [| exact (parentInformed_same st _ eq_refl eq_refl Hst)].
    destruct (String.eqb (language p) "en"); cbn.
    + right. cbn. apply last_elem_snoc.
    + destruct answer as [t | err]; cbn.
      * right. cbn. apply last_elem_snoc.
      * exact (parentInformed_same st _ eq_refl eq_refl Hst).
  - apply clearText_informed. exact Hcb.
  - exact (parentInformed_same st _ eq_refl eq_refl Hst).
Qed.

(** When the parent supplies [onDetection], it always holds the text on
    display: in both revisions, after any frames, clears and stops, either
    the callback was never called and the text is empty, or the last
    argument it was called with is the accumulated text. *)
Theorem parent_holds_the_displayed_text (p : Props) (M : JS.MathLib) :
  onDetection p = true ->
  (forall events, parentInformed (Local.run p M events)) /\
  (forall events, parentInformed (Remote.run p events)).
Proof.
  intros Hcb. split; intros events.
  - induction events as [| e events IH] using rev_ind.
    + left. split; reflexivity.
    + rewrite run_snoc. apply local_step_informed; assumption.
  - induction events as [| e events IH] using rev_ind.
    + left. split; reflexivity.
    + rewrite remote_run_snoc. apply remote_step_informed; assumption.
Qed.

Lemma parent_holds_the_displayed_text_witness :
  parentInformed
    (Local.run enProps JS.ieeeMath
       (repeat (fistFrame (Normal None)) 3 ++ [Local.ClearText])).
Proof.
  apply (proj1 (parent_holds_the_displayed_text enProps JS.ieeeMath eq_refl)).
Defined.

(** ** Frames that are not processed *)






(** ** Stopping *)

(** [stopDetection] keeps the accumulated text and what the parent was told,
    clears the gesture on display and resets the gate: the next two
    detections, whatever they show, publish nothing. *)
Theorem stopDetection_resets_the_gate (p : Props) (st : State)
    (answer1 answer2 : completion (option string))
    (g1 g2 : string) (conf1 conf2 : float) :
  let stopped := exec Local.stopDetection st in
  let later :=
    exec (Local.processGesture p answer2 g2 conf2)
      (exec (Local.processGesture p answer1 g1 conf1) stopped) in
  detectedText stopped = detectedText st /\
  onDetectionCalls stopped = onDetectionCalls st /\
  currentGesture stopped = "" /\ isActive stopped = false /\
  currentGesture later = "" /\
  detectedText later = detectedText st /\
  onDetectionCalls later = onDetectionCalls st /\
  translateCalls later = translateCalls st.
Proof.
  cbn zeta.
  assert (Hstop : exec Local.stopDetection st =
                  setGestureCountRef 0
                    (setLastGestureRef ""
                       (setHandDetected false
                          (setConfidence 0
                             (setCurrentGesture "" (setIsActive false st))))))
    by reflexivity.
  rewrite Hstop. clear Hstop.
  set (stopped := setGestureCountRef 0 _).
  assert (H1 : publishes g1 stopped = false).
  { unfold publishes, countedAs. cbn.
    destruct (String.eqb g1 ""); reflexivity. }
  assert (H2 : publishes g2 (counted g1 stopped) = false).
  { unfold publishes, counted. unfold countedAs. cbn.
    destruct (String.eqb g2 g1); [| reflexivity].
    destruct (String.eqb g1 ""); reflexivity. }
  unfold exec. rewrite !processGesture_run. cbn [fst].
  rewrite H1, H2. repeat split; reflexivity.
Qed.

(** ** Labels of several words *)

Lemma split_pieces_have_no_space (s w : string) :
  In w (JS.split s) -> contains_space w = false.
Proof.
  revert w. induction s as [| c s IH]; intros w; cbn [JS.split].
  - intros [<- | []]. reflexivity.
  - unfold is_space in *. destruct (Ascii.eqb c " ") eqn:Hc.
    + intros [<- | Hin]; [reflexivity | apply IH; exact Hin].
    + pose proof (split_not_nil s) as Hne.
      destruct (JS.split s) as [| w0 ws]; [contradiction|].
      intros [<- | Hin].
      * cbn. unfold is_space. rewrite Hc. cbn. apply IH. left. reflexivity.
      * apply IH. right. exact Hin.
Qed.

Lemma last_elem_in {A : Type} (l : list A) (x : A) :
  JS.last_elem l = Some x -> In x l.
Proof.
  unfold JS.last_elem. intros H. apply in_rev.
  destruct (rev l) as [| y ys]; [discriminate|].
  injection H as ->. left. reflexivity.
Qed.

Lemma distinctAppend_spaced_label (text d : string) :
  contains_space d = true -> distinctAppend text d = appendText text d.
Proof.
  intros Hd. unfold distinctAppend.
  destruct (JS.last_elem (words text)) as [w|] eqn:Hw; [| reflexivity].
  destruct (String.eqb w d) eqn:Hwd; [| reflexivity].
  apply String.eqb_eq in Hwd. subst w.
  apply last_elem_in in Hw. unfold words in Hw.
  apply filter_In in Hw as [Hin _].
  rewrite (split_pieces_have_no_space text d Hin) in Hd. discriminate.
Qed.

(** The check against repeats compares the whole display label with the
    last word of the text, and a word holds no space: a published label
    with a space in it ("I Love You", "Thank You", or such a translation) is
    appended every time, also right after itself. *)
Theorem spaced_label_is_always_appended (p : Props)
    (answer : completion (option string)) (g : string) (conf : float)
    (st : State) :
  publishes g st = true ->
  contains_space (displayLabel p answer g) = true ->
  detectedText (exec (Local.processGesture p answer g conf) st) =
    appendText (detectedText st) (displayLabel p answer g).
Proof.
  intros Hpub Hd. rewrite processGesture_text, Hpub.
  apply distinctAppend_spaced_label. exact Hd.
Qed.

Lemma spaced_label_is_always_appended_witness :
  let st := Local.run enProps JS.ieeeMath
              (repeat (thankYouFrame (Normal None)) 5) in
  detectedText st = "Thank You" /\
  detectedText
    (exec (Local.processGesture enProps (Normal None) "Thank You" 0.82) st)
    = "Thank You Thank You".
Proof.
  split; [vm_compute; reflexivity|].
  apply (spaced_label_is_always_appended enProps (Normal None) "Thank You"
           0.82%float
           (Local.run enProps JS.ieeeMath
              (repeat (thankYouFrame (Normal None)) 5)));
    vm_compute; reflexivity.
Defined.

(** ** The earlier revision's detection call *)

(** [processLandmarks] never throws, whatever the two remote calls do; on an
    empty landmark list it does nothing at all; otherwise it ends with the
    detecting flag down. *)
Theorem processLandmarks_always_settles (p : Props)
    (reply : completion Remote.DetectReply)
    (answer : completion (option string)) (landmarks : list Landmark)
    (st : State) :
  snd (Remote.processLandmarks p reply answer landmarks st) = Normal tt /\
  (landmarks = [] ->
   fst (Remote.processLandmarks p reply answer landmarks st) = st) /\
  (landmarks <> [] ->
   isDetecting (exec (Remote.processLandmarks p reply answer landmarks) st)
     = false).
Proof.
  destruct landmarks as [| lm rest].
  - repeat split. intros H. contradiction.
  - unfold Remote.processLandmarks, invokeTranslate, Remote.addText,
      callOnDetection.
    eff. cbn.
    split; [| split; [discriminate | intros _]];
      (destruct reply as [[[d|] [|]] | err]; cbn; try reflexivity;
       destruct (Remote.detected d && JS.truthy (Remote.gesture d)); cbn;
       try reflexivity;
       destruct (String.eqb (language p) "en"); cbn;
       [ destruct (onDetection p); reflexivity
       | destruct answer as [t | err]; cbn;
         [destruct (onDetection p); reflexivity | reflexivity] ]).
Qed.

Lemma processLandmarks_always_settles_witness :
  isDetecting
    (exec (Remote.processLandmarks frProps (Throw OtherValue) (Throw OtherValue)
             someHand) initialState) = false.
Proof.
  apply (proj2 (proj2 (processLandmarks_always_settles frProps
                         (Throw OtherValue) (Throw OtherValue) someHand
                         initialState))).
  discriminate.
Defined.

(** A detection call that reports no gesture (rejected, answered with an
    error, without data, not detected, or with an empty gesture) leaves the
    gesture on display and the text as they were, asks for no translation
    and does not call [onDetection]; a rejected call adds "Processing
    error:" to the console and an error reply adds "Detection error:". *)
Theorem failed_detection_changes_nothing_shown (p : Props)
    (reply : completion Remote.DetectReply)
    (answer : completion (option string)) (landmarks : list Landmark)
    (st : State) :
  landmarks <> [] ->
  noGesture reply = true ->
  let st' := exec (Remote.processLandmarks p reply answer landmarks) st in
  shown st' = shown st /\
  shownConfidence st' = shownConfidence st /\
  translateCalls st' = translateCalls st /\
  onDetectionCalls st' = onDetectionCalls st /\
  console st' = console st ++ complaint reply.
Proof.
  intros Hhand Hno st'. subst st'.
  destruct landmarks as [| lm rest]; [contradiction|].
  unfold Remote.processLandmarks, noGesture, complaint in *. eff. cbn.
  destruct reply as [[[d|] [|]] | err]; cbn in *;
    try (rewrite ?app_nil_r; repeat split; reflexivity).
  apply negb_true_iff in Hno. rewrite Hno. cbn.
  rewrite app_nil_r. repeat split; reflexivity.
Qed.

Lemma failed_detection_changes_nothing_shown_witness :
  console
    (exec (Remote.processLandmarks enProps (Throw OtherValue) (Normal None)
             someHand) initialState) = ["Processing error:"].
Proof.
  apply (proj2 (proj2 (proj2 (proj2
           (failed_detection_changes_nothing_shown enProps (Throw OtherValue)
              (Normal None) someHand initialState
              ltac:(discriminate) eq_refl))))).
Defined.

(** In the earlier revision a translation call that is rejected stops the
    update half way: the reported gesture and its confidence are on display,
    but nothing is appended to the text, [onDetection] is not called, and
    "Processing error:" goes to the console. *)
Theorem rejected_translation_shows_gesture_without_text (p : Props)
    (d : Remote.DetectData) (err : Thrown) (landmarks : list Landmark)
    (st : State) :
  landmarks <> [] ->
  Remote.detected d = true ->
  JS.truthy (Remote.gesture d) = true ->
  String.eqb (language p) "en" = false ->
  let st' :=
    exec (Remote.processLandmarks p (reporting d) (Throw err) landmarks) st in
  currentGesture st' = Remote.gesture d /\
  shownConfidence st' = Remote.confidence d /\
  detectedText st' = detectedText st /\
  onDetectionCalls st' = onDetectionCalls st /\
  translateCalls st' = translateCalls st ++ [(Remote.gesture d, language p)] /\
  console st' = console st ++ ["Processing error:"].
Proof.
  intros Hhand Hdet Hg Hlang st'. subst st'.
  destruct landmarks as [| lm rest]; [contradiction|].
  unfold Remote.processLandmarks, reporting, invokeTranslate. eff. cbn.
  rewrite Hdet, Hg, Hlang. cbn. repeat split; reflexivity.
Qed.

Lemma rejected_translation_shows_gesture_without_text_witness :
  let st' :=
    exec (Remote.processLandmarks frProps (reporting helloData)
            (Throw OtherValue) someHand) initialState in
  currentGesture st' = "Hello" /\ detectedText st' = "".
Proof.
  destruct (rejected_translation_shows_gesture_without_text frProps helloData
              OtherValue someHand initialState
              ltac:(discriminate) eq_refl eq_refl eq_refl)
    as (Hcur & _ & Htext & _).
  split; [exact Hcur | exact Htext].
Defined.

(** ** Starting detection, further *)

Ltac local_start_cases env :=
  unfold Local.startDetection, Local.loadScript; eff; cbn;
  destruct (Local.getUserMedia env) as [[] | [? ? |]]; cbn;
  [ destruct (Local.elementsMounted env); cbn;
    [ destruct (Local.videoReady env) as [[] | [? ? |]]; cbn;
      [ destruct (Local.scriptLoad env) as [| [|] |]; cbn;
        try destruct (Local.handsSetup env) as [[] | ?]; cbn
      | | ]
    | ]
  | | ].

Ltac remote_start_cases env :=
  unfold Remote.startDetection, Remote.initializeMediaPipe,
    Remote.loadMediaPipeScript; eff; cbn;
  destruct (Remote.scriptLoad env) as [| [|] |]; cbn;
  try (destruct (Remote.handsSetup env) as [[] | ?]; cbn);
  try (destruct (Remote.getUserMedia env) as [[] | [? ? |]]; cbn);
  try (destruct (Remote.elementsMounted env); cbn).

Ltac by_error_name :=
  repeat match goal with
         | |- context [String.eqb ?n "NotAllowedError"] =>
             destruct (String.eqb n "NotAllowedError"); cbn
         | |- context [String.eqb ?n "NotFoundError"] =>
             destruct (String.eqb n "NotFoundError"); cbn
         end.

Lemma local_start_explained (env : Local.StartEnv) (st : State) :
  quietOrExplained st (exec (Local.startDetection env) st).
Proof.
  unfold quietOrExplained.
  local_start_cases env; by_error_name;
    try (left; reflexivity);
    try (right; eexists; repeat split; reflexivity);
    match goal with
    | |- context [JS.truthy ?m] =>
        destruct (JS.truthy m) eqn:Hm; right; eexists; cbn;
        repeat split; try reflexivity; exact Hm
    end.
Qed.

Lemma local_start_loading (env : Local.StartEnv) (st : State) :
  isLoading (exec (Local.startDetection env) st) = false.
Proof. local_start_cases env; by_error_name; reflexivity. Qed.

Lemma remote_start_explained (env : Remote.StartEnv) (st : State) :
  quietOrExplained st (exec (Remote.startDetection env) st).
Proof.
  unfold quietOrExplained.
  remote_start_cases env; by_error_name;
    try (left; reflexivity);
    try (right; eexists; repeat split; reflexivity);
    match goal with
    | |- context [JS.truthy ?m] =>
        destruct (JS.truthy m) eqn:Hm; right; eexists; cbn;
        repeat split; try reflexivity; exact Hm
    end.
Qed.

Lemma remote_start_loading (env : Remote.StartEnv) (st : State) :
  isLoading (exec (Remote.startDetection env) st) = false.
Proof. remote_start_cases env; by_error_name; reflexivity. Qed.

(** In both revisions the loading state is off when [startDetection]
    returns, on success and on every failure. *)
Theorem startDetection_stops_loading :
  (forall env st, isLoading (exec (Local.startDetection env) st) = false) /\
  (forall env st, isLoading (exec (Remote.startDetection env) st) = false).
Proof. split; [exact local_start_loading | exact remote_start_loading]. Qed.

(** In both revisions a start leaves either no error, or an error message
    that is not the empty string together with the camera state as it was:
    a message is never shown for a start that switched the camera on. *)
Theorem startDetection_error_is_explained :
  (forall env st, quietOrExplained st (exec (Local.startDetection env) st)) /\
  (forall env st, quietOrExplained st (exec (Remote.startDetection env) st)).
Proof. split; [exact local_start_explained | exact remote_start_explained]. Qed.

(** From an inactive component, the later revision goes live exactly when
    the camera opens, the page elements are there and the video starts: the
    tracker plays no part.  The earlier revision goes live exactly when the
    tracker is ready as well, the camera opens and the elements are there. *)
Theorem going_live (st : State) :
  isActive st = false ->
  (forall env,
     isActive (exec (Local.startDetection env) st) = true <->
     Local.getUserMedia env = Normal tt /\
     Local.elementsMounted env = true /\
     Local.videoReady env = Normal tt) /\
  (forall env,
     isActive (exec (Remote.startDetection env) st) = true <->
     trackerReady env = true /\
     Remote.getUserMedia env = Normal tt /\
     Remote.elementsMounted env = true).
Proof.
  intros Hoff. split; intros env.
  - local_start_cases env; by_error_name; rewrite ?Hoff;
      split; intros H; try discriminate; try reflexivity;
      try (repeat split; reflexivity);
      destruct H as (H1 & H2 & H3); discriminate.
  - unfold trackerReady.
    remote_start_cases env; by_error_name; rewrite ?Hoff;
      split; intros H; try discriminate; try reflexivity;
      try (repeat split; reflexivity);
      destruct H as (H1 & H2 & H3); discriminate.
Qed.

Lemma going_live_witness :
  isActive (exec (Local.startDetection trackerUnavailable) initialState) = true.
Proof.
  apply (proj1 (going_live initialState eq_refl) trackerUnavailable).
  repeat split; reflexivity.
Defined.

(** When the video or canvas element is missing, the later revision says so
    ("Video elements not ready"); the earlier one, with the tracker ready
    and the camera open, ends with no error and no camera: the start fails
    without a word. *)
Theorem missing_elements_on_start (st : State) :
  (forall env,
     Local.getUserMedia env = Normal tt ->
     Local.elementsMounted env = false ->
     error (exec (Local.startDetection env) st)
       = Some "Video elements not ready" /\
     isActive (exec (Local.startDetection env) st) = isActive st) /\
  (forall env,
     trackerReady env = true ->
     Remote.getUserMedia env = Normal tt ->
     Remote.elementsMounted env = false ->
     error (exec (Remote.startDetection env) st) = None /\
     isActive (exec (Remote.startDetection env) st) = isActive st /\
     console (exec (Remote.startDetection env) st) = console st).
Proof.
  split; intros env.
  - intros Hcam Hel. unfold Local.startDetection. eff. cbn.
    rewrite Hcam, Hel. cbn. split; reflexivity.
  - unfold trackerReady. intros Hready Hcam Hel.
    remote_start_cases env; try discriminate; repeat split; reflexivity.
Qed.

Lemma missing_elements_on_start_witness :
  error (exec (Local.startDetection localUnmounted) initialState)
    = Some "Video elements not ready" /\
  error (exec (Remote.startDetection remoteUnmounted) initialState) = None.
Proof.
  split.
  - apply (proj1 (missing_elements_on_start initialState) localUnmounted);
      reflexivity.
  - apply (proj2 (missing_elements_on_start initialState) remoteUnmounted);
      reflexivity.
Defined.

(** A camera call rejected with a value that is not an [Error] is caught
    without a message: in both revisions the start ends with no error, the
    camera state as it was, and one line on the console. *)
Theorem thrown_value_fails_silently (st : State) :
  (forall env,
     Local.getUserMedia env = Throw OtherValue ->
     error (exec (Local.startDetection env) st) = None /\
     isActive (exec (Local.startDetection env) st) = isActive st /\
     console (exec (Local.startDetection env) st)
       = console st ++ ["Camera error:"]) /\
  (forall env,
     trackerReady env = true ->
     Remote.getUserMedia env = Throw OtherValue ->
     error (exec (Remote.startDetection env) st) = None /\
     isActive (exec (Remote.startDetection env) st) = isActive st /\
     console (exec (Remote.startDetection env) st)
       = console st ++ ["Camera/Detection error:"]).
Proof.
  split; intros env.
  - intros Hcam. unfold Local.startDetection. eff. cbn.
    rewrite Hcam. cbn. repeat split; reflexivity.
  - unfold trackerReady. intros Hready Hcam.
    remote_start_cases env; try discriminate; repeat split; reflexivity.
Qed.

Lemma thrown_value_fails_silently_witness :
  error (exec (Local.startDetection cameraThrowsValue) initialState) = None.
Proof.
  apply (proj1 (thrown_value_fails_silently initialState) cameraThrowsValue).
  reflexivity.
Defined.

(** ** The status indicator over a session *)






